(** * scripts/update_project_status.py

    A shallow embedding of the status script of the ascenoria repository and
    the properties of its run driver.

    The script is a straight sequence of HTTP calls.  The embedding keeps
    the shape of the Python text:
    - values decoded by [json.loads] are the type [json]; the dynamic
      operations the script applies to them (subscript, [.get], [in],
      truth value, [==], iteration) are total functions that raise the
      exception Python raises on a value of the wrong shape;
    - the network is an oracle that answers a request from the requests
      made so far; a run threads the list of requests it made and the lines
      it printed, and ends in a value or in an exception;
    - f-strings are evaluated by [fstring], which follows the lexical rules
      of Python's formatted string literals.

    The literal of line 174 has an empty replacement field, which the
    interpreter rejects when it compiles the file.  Two definitions keep
    the two things apart:
    - [script] is a run of the file: the error is reported before the first
      statement, for every command line and every environment;
    - [main] is the body of the function, statement by statement, as it
      runs once control is in it; there the literal raises where line 174
      stands, in the branch of the explicit issue numbers.
    What is said of a run is said of [script], or of both; what is said of
    the helper functions and of the loop of lines 184-197 is said of the
    code of those lines. *)

From Stdlib Require Import ZArith String Ascii List Bool Lia DecimalString.
From stdpp Require Import base gmap sets list strings sorting.
Import ListNotations.

#[local] Set Warnings "-register-all".

Local Open Scope Z_scope.

(** ** Exceptions and results *)

Inductive exn : Type :=
  | SystemExit (msg : string)
  | SyntaxError
  | NameError (name : string)
  | KeyError (key : string)
  | IndexError
  | TypeError
  | AttributeError
  | ValueError
  | URLError.

Inductive result (A : Type) : Type :=
  | Ok (a : A)
  | Raise (e : exn).
Arguments Ok {A} a.
Arguments Raise {A} e.

Definition rbind {A B : Type} (r : result A) (k : A -> result B) : result B :=
  match r with
  | Ok a => k a
  | Raise e => Raise e
  end.

Notation "'let?' x ':=' c 'in' k" := (rbind c (fun x => k))
  (at level 10, x pattern, c at level 100, k at level 200).

(** ** JSON values as Python sees them *)

(** What [json.loads] returns.  An object keeps its pairs in the order of
    the text, each key once.  Numbers are integers: the fields the script
    reads (identifiers, names, issue numbers) carry no fractions.  A string
    is a sequence of characters. *)
Inductive json : Type :=
  | JNull
  | JBool (b : bool)
  | JNum (n : Z)
  | JStr (s : string)
  | JArr (items : list json)
  | JObj (pairs : list (string * json)).

Fixpoint dict_lookup (key : string) (pairs : list (string * json)) : option json :=
  match pairs with
  | [] => None
  | (k, v) :: rest => if String.eqb k key then Some v else dict_lookup key rest
  end.

(** [bool(v)], the test behind [if v] and [not v]. *)
Definition truthy (v : json) : bool :=
  match v with
  | JNull => false
  | JBool b => b
  | JNum n => negb (n =? 0)
  | JStr EmptyString => false
  | JStr _ => true
  | JArr [] => false
  | JArr _ => true
  | JObj [] => false
  | JObj _ => true
  end.

(** [v[key]] with a string key. *)
Definition subscript (v : json) (key : string) : result json :=
  match v with
  | JObj pairs =>
      match dict_lookup key pairs with
      | Some x => Ok x
      | None => Raise (KeyError key)
      end
  | _ => Raise TypeError
  end.

(** [v.get(key, default)]; only a dict has the method. *)
Definition py_get_default (v : json) (key : string) (default : json) : result json :=
  match v with
  | JObj pairs =>
      match dict_lookup key pairs with
      | Some x => Ok x
      | None => Ok default
      end
  | _ => Raise AttributeError
  end.

(** [v.get(key)] *)
Definition py_get (v : json) (key : string) : result json :=
  py_get_default v key JNull.

(** [a == b].  A bool is the integer 0 or 1; lists compare element by
    element, dicts key by key. *)
Fixpoint py_eq (a b : json) : bool :=
  match a, b with
  | JNull, JNull => true
  | JBool x, JBool y => Bool.eqb x y
  | JBool x, JNum n => (if x then 1 else 0) =? n
  | JNum n, JBool x => n =? (if x then 1 else 0)
  | JNum n, JNum m => n =? m
  | JStr s, JStr t => String.eqb s t
  | JArr l, JArr m =>
      (fix all2 (l : list json) (m : list json) {struct l} : bool :=
         match l, m with
         | [], [] => true
         | x :: l', y :: m' => py_eq x y && all2 l' m'
         | _, _ => false
         end) l m
  | JObj p, JObj q =>
      (length p =? length q)%nat &&
      (fix every (p : list (string * json)) : bool :=
         match p with
         | [] => true
         | (k, v) :: p' =>
             match dict_lookup k q with
             | Some w => py_eq v w && every p'
             | None => false
             end
         end) p
  | _, _ => false
  end.

(** The one-character strings of [s], as [for c in s] yields them. *)
Fixpoint chars (s : string) : list json :=
  match s with
  | EmptyString => []
  | String c rest => JStr (String c EmptyString) :: chars rest
  end.

(** The values a [for] loop over [v] yields. *)
Definition py_iter (v : json) : result (list json) :=
  match v with
  | JArr l => Ok l
  | JObj pairs => Ok (map (fun kv => JStr (fst kv)) pairs)
  | JStr s => Ok (chars s)
  | _ => Raise TypeError
  end.

Definition is_substring (needle hay : string) : bool :=
  match String.index 0 needle hay with
  | Some _ => true
  | None => false
  end.

(** [needle in v] for a string [needle]: a key of a dict, a substring of a
    string, an element of a list. *)
Definition py_in (needle : string) (v : json) : result bool :=
  match v with
  | JObj pairs =>
      Ok (match dict_lookup needle pairs with Some _ => true | None => false end)
  | JStr s => Ok (is_substring needle s)
  | JArr l => Ok (existsb (py_eq (JStr needle)) l)
  | _ => Raise TypeError
  end.

(** [str(n)] of an integer. *)
Definition str_of_Z (n : Z) : string := NilZero.string_of_int (Z.to_int n).

(** ** Formatted string literals and [str.format] *)

(** The value of an expression of an f-string, found by its text. *)
Fixpoint assoc_lookup (key : string) (vars : list (string * string)) : option string :=
  match vars with
  | [] => None
  | (k, v) :: rest => if String.eqb k key then Some v else assoc_lookup key rest
  end.

(** The text between the quotes of an f-string is scanned left to right.
    Outside a replacement field a doubled brace is a literal brace, an
    opening brace starts a field and a closing brace alone is an error;
    a field runs to its closing brace and must hold an expression.  The
    expressions of this script are names and one call, so a field is looked
    up by its text in [vars], the values of the expressions in scope. *)
Fixpoint fstring_scan (vars : list (string * string)) (field : option string)
    (s : string) : result string :=
  match field, s with
  | None, EmptyString => Ok EmptyString
  | None, String "{" (String "{" rest) =>
      let? out := fstring_scan vars None rest in Ok (String "{" out)
  | None, String "{" rest => fstring_scan vars (Some EmptyString) rest
  | None, String "}" (String "}" rest) =>
      let? out := fstring_scan vars None rest in Ok (String "}" out)
  | None, String "}" _ => Raise SyntaxError
  | None, String c rest =>
      let? out := fstring_scan vars None rest in Ok (String c out)
  | Some expr, EmptyString => Raise SyntaxError
  | Some expr, String "}" rest =>
      match expr with
      | EmptyString => Raise SyntaxError
      | _ =>
          match assoc_lookup expr vars with
          | Some v => let? out := fstring_scan vars None rest in Ok (v +:+ out)
          | None =>
              (* the rest of the literal is still checked by the compiler *)
              let? _ := fstring_scan vars None rest in Raise (NameError expr)
          end
      end
  | Some expr, String c rest =>
      fstring_scan vars (Some (expr +:+ String c EmptyString)) rest
  end.

Definition fstring (template : string) (vars : list (string * string)) : result string :=
  fstring_scan vars None template.

(** How the fields of a format string are numbered so far. *)
Inductive numbering : Type :=
  | Unnumbered
  | Automatic (next : nat)
  | Manual.

Fixpoint is_digits (s : string) : bool :=
  match s with
  | EmptyString => true
  | String c rest =>
      (Nat.leb 48 (nat_of_ascii c) && Nat.leb (nat_of_ascii c) 57) && is_digits rest
  end.

Fixpoint is_zeros (s : string) : bool :=
  match s with
  | EmptyString => true
  | String c rest => Nat.eqb (nat_of_ascii c) 48 && is_zeros rest
  end.

(** One field of [template.format(arg)], called with one positional
    argument.  A field is empty (numbered automatically) or an index; any
    other field names a keyword argument, and none is passed.  Conversions
    and format specifications do not occur in the script. *)
Definition format_field (arg : string) (mode : numbering) (name : string)
    : result (string * numbering) :=
  match name with
  | EmptyString =>
      match mode with
      | Unnumbered => Ok (arg, Automatic 1)
      | Automatic _ => Raise IndexError
      | Manual => Raise ValueError
      end
  | _ =>
      if is_digits name then
        match mode with
        | Automatic _ => Raise ValueError
        | _ => if is_zeros name then Ok (arg, Manual) else Raise IndexError
        end
      else Raise (KeyError name)
  end.

Fixpoint format_scan (arg : string) (mode : numbering) (field : option string)
    (s : string) : result string :=
  match field, s with
  | None, EmptyString => Ok EmptyString
  | None, String "{" (String "{" rest) =>
      let? out := format_scan arg mode None rest in Ok (String "{" out)
  | None, String "{" rest => format_scan arg mode (Some EmptyString) rest
  | None, String "}" (String "}" rest) =>
      let? out := format_scan arg mode None rest in Ok (String "}" out)
  | None, String "}" _ => Raise ValueError
  | None, String c rest =>
      let? out := format_scan arg mode None rest in Ok (String c out)
  | Some _, EmptyString => Raise ValueError
  | Some name, String "}" rest =>
      let? (text, mode') := format_field arg mode name in
      let? out := format_scan arg mode' None rest in Ok (text +:+ out)
  | Some name, String c rest =>
      format_scan arg mode (Some (name +:+ String c EmptyString)) rest
  end.

Definition str_format (template : string) (arg : string) : result string :=
  format_scan arg Unnumbered None template.

(** ** Requests, the network and the state of a run *)

(** What [urllib.request.Request] is built from.  The body is kept as the
    JSON value that [json.dumps] serialises. *)
Record http_request : Type := {
  req_url : string;
  req_data : option json;
  req_headers : list (string * string);
  req_method : string
}.

(** The remote side: the decoded body of the answer to a request, given
    the requests already made in this run; [None] when [urlopen] or the
    decoding raises (no connection, a status outside 2xx, a body that is
    not JSON). *)
Definition network : Type := list http_request -> http_request -> option json.

Record world : Type := {
  requests : list http_request;
  stdout : list string
}.

Definition start : world := {| requests := []; stdout := [] |}.

(** A computation reads and extends the world and ends in a value or in an
    exception; the world reached is kept in both cases. *)
Definition M (A : Type) : Type := world -> result A * world.

Definition ret {A : Type} (a : A) : M A := fun w => (Ok a, w).

Definition raise {A : Type} (e : exn) : M A := fun w => (Raise e, w).

Definition bind {A B : Type} (c : M A) (k : A -> M B) : M B :=
  fun w =>
    match c w with
    | (Ok a, w') => k a w'
    | (Raise e, w') => (Raise e, w')
    end.

Definition lift {A : Type} (r : result A) : M A := fun w => (r, w).

Notation "'let!' x ':=' c 'in' k" := (bind c (fun x => k))
  (at level 10, x pattern, c at level 100, k at level 200).

(** The world after one more request, and after one more printed line. *)
Definition sent (r : http_request) (w : world) : world :=
  {| requests := requests w ++ [r]; stdout := stdout w |}.

Definition printed (line : string) (w : world) : world :=
  {| requests := requests w; stdout := stdout w ++ [line] |}.

Definition print (line : string) : M unit := fun w => (Ok tt, printed line w).

(** The exit status of the process: an exception that reaches the top
    level, [SystemExit] with a message included, ends it with status 1. *)
Definition exit_code {A : Type} (r : result A) : Z :=
  match r with
  | Ok _ => 0
  | Raise _ => 1
  end.

(** ** Module constants *)

Definition OWNER : string := "AlexanderZagaynov".
Definition REPO : string := "ascenoria".
Definition PROJECT_NUMBER : Z := 2.
Definition STATUS_FIELD_NAME : string := "Status".
Definition STATUS_DONE_VALUE : string := "Done".
Definition GITHUB_API : string := "https://api.github.com".

(** The module-level names an f-string of the script can mention. *)
Definition module_globals : list (string * string) :=
  [("OWNER", OWNER); ("REPO", REPO); ("PROJECT_NUMBER", str_of_Z PROJECT_NUMBER);
   ("STATUS_FIELD_NAME", STATUS_FIELD_NAME); ("STATUS_DONE_VALUE", STATUS_DONE_VALUE);
   ("GITHUB_API", GITHUB_API)].

Definition metadata_query : string := "
    query($owner: String!, $number: Int!) {
      user(login: $owner) {
        projectV2(number: $number) {
          id
          fields(first: 20) {
            nodes {
              ... on ProjectV2SingleSelectField {
                id
                name
                options { id name }
              }
            }
          }
        }
      }
    }
    ".

Definition items_query : string := "
    query($issueId: ID!) {
      node(id: $issueId) {
        ... on Issue {
          projectItems(first: 20, includeArchived: false) {
            nodes {
              id
              project { id }
            }
          }
        }
      }
    }
    ".

Definition mutation : string := "
    mutation($projectId: ID!, $itemId: ID!, $fieldId: ID!, $optionId: String!) {
      updateProjectV2ItemFieldValue(input: {
        projectId: $projectId,
        itemId: $itemId,
        fieldId: $fieldId,
        value: { singleSelectOptionId: $optionId }
      }) {
        projectV2Item { id }
      }
    }
    ".

(** What [argparse] hands to [main]: the positional integers. *)
Record Namespace : Type := { issues : list Z }.

(** ** The pure loops of the script *)

(** Lines 92-94: the options of the status field; a later option named
    "Done" replaces an earlier one. *)
Fixpoint scan_options (options : list json) (status_done_option : json) : result json :=
  match options with
  | [] => Ok status_done_option
  | option :: rest =>
      let? name := py_get option "name" in
      if py_eq name (JStr STATUS_DONE_VALUE) then
        let? id := subscript option "id" in scan_options rest id
      else scan_options rest status_done_option
  end.

(** Lines 86-95: the status field identifier and the done option, both
    [None] at first; the loop stops at the first field named "Status". *)
Fixpoint scan_fields (fields : list json) : result (json * json) :=
  match fields with
  | [] => Ok (JNull, JNull)
  | field :: rest =>
      if truthy field then
        let? name := py_get field "name" in
        if py_eq name (JStr STATUS_FIELD_NAME) then
          let? status_field_id := subscript field "id" in
          let? options := py_get_default field "options" (JArr []) in
          let? options := py_iter options in
          let? status_done_option := scan_options options JNull in
          Ok (status_field_id, status_done_option)
        else scan_fields rest
      else scan_fields rest
  end.

(** Line 106: the list comprehension. *)
Fixpoint without_pull_requests (issues : list json) : result (list json) :=
  match issues with
  | [] => Ok []
  | issue :: rest =>
      let? marked := py_in "pull_request" issue in
      let? kept := without_pull_requests rest in
      Ok (if marked then kept else issue :: kept)
  end.

(** Line 128: [item.get("project", {}).get("id")] *)
Definition parent_project_id (item : json) : result json :=
  let? project := py_get_default item "project" (JObj []) in
  py_get project "id".

(** Lines 127-130. *)
Fixpoint first_item_on (items : list json) (project_id : json) : result json :=
  match items with
  | [] => Ok JNull
  | item :: rest =>
      let? id := parent_project_id item in
      if py_eq id project_id then py_get item "id"
      else first_item_on rest project_id
  end.

(** Line 81: [result["data"]["user"]["projectV2"]] *)
Definition project_node (response : json) : result json :=
  let? data := subscript response "data" in
  let? user := subscript data "user" in
  subscript user "projectV2".

(** Line 89: the values the loop over [project["fields"]["nodes"]] visits. *)
Definition project_fields (project : json) : result (list json) :=
  let? fields := subscript project "fields" in
  let? nodes := subscript fields "nodes" in
  py_iter nodes.

(** Line 126 and the values the loop of line 127 visits. *)
Definition project_items (response : json) : result (list json) :=
  let? data := subscript response "data" in
  let? node := subscript data "node" in
  let? project_items := py_get_default node "projectItems" (JObj []) in
  let? items := py_get_default project_items "nodes" (JArr []) in
  py_iter items.

(** [sorted(issue_numbers)] *)
Definition sorted (issue_numbers : gset Z) : list Z :=
  merge_sort Z.le (elements issue_numbers).

(** Lines 81-100: what [_fetch_project_metadata] does with the answer. *)
Definition resolve (response : json) : result (json * json * json) :=
  let? project := project_node response in
  if negb (truthy project) then
    let? msg := fstring "Project {PROJECT_NUMBER} for {OWNER} was not found"
                  module_globals in
    Raise (SystemExit msg)
  else
    let? project_id := subscript project "id" in
    let? fields := project_fields project in
    let? (status_field_id, status_done_option) := scan_fields fields in
    if negb (truthy status_field_id) || negb (truthy status_done_option) then
      Raise (SystemExit "Status field or Done option not found on project")
    else Ok (project_id, status_field_id, status_done_option).

(** Lines 126-130: what [_issue_project_item_id] does with the answer. *)
Definition locate (response : json) (project_id : json) : result json :=
  let? items := project_items response in
  first_item_on items project_id.

(** ** The script *)

Section Script.

(** [repr] of a list or of a dict, which [str] falls back to: its
    escaping of characters follows the Unicode database and is left
    open. *)
Variable py_repr : json -> string.

Variable net : network.

(** [str(v)], what an f-string field prints. *)
Definition py_str (v : json) : string :=
  match v with
  | JNull => "None"
  | JBool true => "True"
  | JBool false => "False"
  | JNum n => str_of_Z n
  | JStr s => s
  | _ => py_repr v
  end.

(** [json.loads(urlopen(request).read().decode())]: the request goes out
    and is answered or fails. *)
Definition urlopen (request : http_request) : M json :=
  fun w =>
    match net (requests w) request with
    | Some response => (Ok response, sent request w)
    | None => (Raise URLError, sent request w)
    end.

(** Lines 32-36. *)
Definition _require_token (environ : gmap string string) : M string :=
  match environ !! "GITHUB_TOKEN" with
  | None => raise (SystemExit "GITHUB_TOKEN is required to update project status")
  | Some EmptyString => raise (SystemExit "GITHUB_TOKEN is required to update project status")
  | Some token => ret token
  end.

(** Lines 39-52.  [method] is "GET" unless the caller names another. *)
Definition _request (url : string) (token : string) (method : string)
    (payload : option json) : M json :=
  let! authorization := lift (fstring "Bearer {token}" [("token", token)]) in
  let headers := [("Authorization", authorization);
                  ("User-Agent", "ascenoria-status-script")] in
  let request :=
    match payload with
    | Some body =>
        {| req_url := url; req_data := Some body;
           req_headers := headers ++ [("Content-Type", "application/json")];
           req_method := method |}
    | None =>
        {| req_url := url; req_data := None; req_headers := headers;
           req_method := method |}
    end in
  urlopen request.

(** Lines 55-57: the call leaves [method] at its default. *)
Definition _graphql (query : string) (variables : json) (token : string) : M json :=
  let body := JObj [("query", JStr query); ("variables", variables)] in
  let! url := lift (fstring "{GITHUB_API}/graphql" module_globals) in
  _request url token "GET" (Some body).

(** Lines 60-100. *)
Definition _fetch_project_metadata (token : string) : M (json * json * json) :=
  let! response :=
    _graphql metadata_query
      (JObj [("owner", JStr OWNER); ("number", JNum PROJECT_NUMBER)]) token in
  lift (resolve response).

(** Lines 103-106. *)
Definition _closed_codex_done_issues (token : string) : M (list json) :=
  let! url :=
    lift (fstring
            "{GITHUB_API}/repos/{OWNER}/{REPO}/issues?state=closed&labels=codex:done&per_page=100"
            module_globals) in
  let! issues := _request url token "GET" None in
  lift (let? issues := py_iter issues in without_pull_requests issues).

(** Lines 109-130. *)
Definition _issue_project_item_id (issue_node_id : json) (project_id : json)
    (token : string) : M json :=
  let! response := _graphql items_query (JObj [("issueId", issue_node_id)]) token in
  lift (locate response project_id).

(** Lines 133-151. *)
Definition _update_status (project_id item_id field_id status_option_id : json)
    (token : string) : M unit :=
  let! _ :=
    _graphql mutation
      (JObj [("projectId", project_id); ("itemId", item_id);
             ("fieldId", field_id); ("optionId", status_option_id)]) token in
  ret tt.

(** Lines 175-177: one request per number, in the order given. *)
Fixpoint fetch_selected (token : string) (url_template : string) (numbers : list Z)
    : M (list json) :=
  match numbers with
  | [] => ret []
  | number :: rest =>
      let! url := lift (str_format url_template (str_of_Z number)) in
      let! issue := _request url token "GET" None in
      let! selected := fetch_selected token url_template rest in
      ret (issue :: selected)
  end.

(** Lines 185-197: the body of the loop over the issues. *)
Definition process_issue (token : string)
    (project_id status_field_id status_done_option : json) (issue : json) : M unit :=
  let! issue_number := lift (subscript issue "number") in
  let! issue_node_id := lift (py_get issue "node_id") in
  if negb (truthy issue_node_id) then
    let! line := lift (fstring "- #{issue_number}: missing node id, skipping"
                         (("issue_number", py_str issue_number) :: module_globals)) in
    print line
  else
    let! item_id := _issue_project_item_id issue_node_id project_id token in
    if negb (truthy item_id) then
      let! line := lift (fstring "- #{issue_number}: not present on project, skipping"
                           (("issue_number", py_str issue_number) :: module_globals)) in
      print line
    else
      let! _ := _update_status project_id item_id status_field_id status_done_option
                  token in
      let! line := lift (fstring "- #{issue_number}: status updated to {STATUS_DONE_VALUE}"
                           (("issue_number", py_str issue_number) :: module_globals)) in
      print line.

(** Line 184: the loop. *)
Fixpoint process_issues (token : string)
    (project_id status_field_id status_done_option : json) (issues : list json)
    : M unit :=
  match issues with
  | [] => ret tt
  | issue :: rest =>
      let! _ := process_issue token project_id status_field_id status_done_option
                  issue in
      process_issues token project_id status_field_id status_done_option rest
  end.

(** Lines 166-197, the body of [main], statement by statement; [args] is
    what [_parse_args] returned.  Whether control ever enters it is the
    matter of [script]. *)
Definition main (environ : gmap string string) (args : Namespace) : M unit :=
  let! token := _require_token environ in
  let! resolved := _fetch_project_metadata token in
  let '(project_id, status_field_id, status_done_option) := resolved in
  let! issues :=
    match issues args with
    | _ :: _ =>
        let issue_numbers : gset Z := list_to_set (issues args) in
        let! url_template :=
          lift (fstring "{GITHUB_API}/repos/{OWNER}/{REPO}/issues/{}" module_globals) in
        fetch_selected token url_template (sorted issue_numbers)
    | [] => _closed_codex_done_issues token
    end in
  let! line :=
    lift (fstring
            "Updating {len(issues)} issue(s) to Status={STATUS_DONE_VALUE} on project {PROJECT_NUMBER}..."
            (("len(issues)", str_of_Z (Z.of_nat (length issues))) :: module_globals)) in
  let! _ := print line in
  process_issues token project_id status_field_id status_done_option issues.

End Script.

(** ** The file as the interpreter loads it *)

(** The formatted string literals of the file, in the order of the text.
    CPython checks them all when it compiles the file, before the first
    statement runs. *)
Definition formatted_literals : list string :=
  ["Bearer {token}";
   "{GITHUB_API}/graphql";
   "Project {PROJECT_NUMBER} for {OWNER} was not found";
   "{GITHUB_API}/repos/{OWNER}/{REPO}/issues?state=closed&labels=codex:done&per_page=100";
   "{GITHUB_API}/repos/{OWNER}/{REPO}/issues/{}";
   "Updating {len(issues)} issue(s) to Status={STATUS_DONE_VALUE} on project {PROJECT_NUMBER}...";
   "- #{issue_number}: missing node id, skipping";
   "- #{issue_number}: not present on project, skipping";
   "- #{issue_number}: status updated to {STATUS_DONE_VALUE}"].

(** The compiler accepts the literal. *)
Definition well_formed (template : string) : bool :=
  match fstring_scan [] None template with
  | Raise SyntaxError => false
  | _ => true
  end.

(** A run of the file.  The interpreter compiles the whole file first: with
    a malformed literal anywhere it reports the error and runs no
    statement; otherwise line 201 calls [main]. *)
Definition script (py_repr : json -> string) (net : network)
    (environ : gmap string string) (args : Namespace) : M unit :=
  if forallb well_formed formatted_literals then main py_repr net environ args
  else raise SyntaxError.

(** ** The requests the script builds *)

(** The headers of [_request], with and without a body. *)
Definition headers_of (token : string) (with_body : bool) : list (string * string) :=
  [("Authorization", "Bearer " +:+ token); ("User-Agent", "ascenoria-status-script")]
  ++ (if with_body then [("Content-Type", "application/json")] else []).

Definition get_request (url token : string) : http_request :=
  {| req_url := url; req_data := None; req_headers := headers_of token false;
     req_method := "GET" |}.

Definition graphql_request (query : string) (variables : json) (token : string)
    : http_request :=
  {| req_url := "https://api.github.com/graphql";
     req_data := Some (JObj [("query", JStr query); ("variables", variables)]);
     req_headers := headers_of token true;
     req_method := "GET" |}.

Definition metadata_request (token : string) : http_request :=
  graphql_request metadata_query
    (JObj [("owner", JStr OWNER); ("number", JNum PROJECT_NUMBER)]) token.

Definition items_request (issue_node_id : json) (token : string) : http_request :=
  graphql_request items_query (JObj [("issueId", issue_node_id)]) token.

Definition update_request (project_id item_id field_id option_id : json)
    (token : string) : http_request :=
  graphql_request mutation
    (JObj [("projectId", project_id); ("itemId", item_id);
           ("fieldId", field_id); ("optionId", option_id)]) token.

Definition closed_issues_url : string :=
  "https://api.github.com/repos/AlexanderZagaynov/ascenoria/issues?state=closed&labels=codex:done&per_page=100".

(** The GraphQL document a request carries, if any. *)
Definition request_query (r : http_request) : option string :=
  match req_data r with
  | Some (JObj pairs) =>
      match dict_lookup "query" pairs with
      | Some (JStr q) => Some q
      | _ => None
      end
  | _ => None
  end.

Definition request_variable (name : string) (r : http_request) : option json :=
  match req_data r with
  | Some (JObj pairs) =>
      match dict_lookup "variables" pairs with
      | Some (JObj vars) => dict_lookup name vars
      | _ => None
      end
  | _ => None
  end.

Definition is_mutation (r : http_request) : bool :=
  match request_query r with
  | Some q => String.eqb q mutation
  | None => false
  end.

(** ** The lines the script prints *)

Definition missing_node_line (number : string) : string :=
  "- #" +:+ number +:+ ": missing node id, skipping".

Definition not_present_line (number : string) : string :=
  "- #" +:+ number +:+ ": not present on project, skipping".

Definition updated_line (number : string) : string :=
  "- #" +:+ number +:+ ": status updated to Done".

Definition summary_line (count : nat) : string :=
  "Updating " +:+ str_of_Z (Z.of_nat count) +:+ " issue(s) to Status=Done on project 2...".

(** ** What the properties speak of *)

(** The answer to a request made in world [w]. *)
Definition answer (net : network) (w : world) (r : http_request) : result json :=
  match net (requests w) r with
  | Some response => Ok response
  | None => Raise URLError
  end.

(** An item of another project: its parent project identifier is read
    without error and differs from the target. *)
Definition off_project (project_id : json) (item : json) : Prop :=
  exists id, parent_project_id item = Ok id /\ py_eq id project_id = false.

(** An item of the target project. *)
Definition on_project (project_id : json) (item : json) : Prop :=
  exists id, parent_project_id item = Ok id /\ py_eq id project_id = true.

(** An issue record without a usable node identifier. *)
Definition lacks_node_id (issue : json) : Prop :=
  exists node, py_get issue "node_id" = Ok node /\ truthy node = false.

(** The project-item query of the issue, made in world [w], is answered
    and lists only items of other projects. *)
Definition absent_from_project (net : network) (token : string) (project_id : json)
    (issue : json) (w : world) : Prop :=
  exists node response items,
    py_get issue "node_id" = Ok node /\ truthy node = true /\
    net (requests w) (items_request node token) = Some response /\
    project_items response = Ok items /\
    Forall (off_project project_id) items.

(** [v] is a record whose name is exactly [name]. *)
Definition named (name : string) (v : json) : Prop := py_get v "name" = Ok (JStr name).

(** Line 92: the values the loop over the options of a field visits. *)
Definition field_options (field : json) : result (list json) :=
  let? options := py_get_default field "options" (JArr []) in
  py_iter options.

(** The three ways the project metadata can fail to resolve: no project,
    no field named "Status", or no option named "Done" in the first field
    of that name. *)
Inductive unresolvable (response : json) : Prop :=
  | project_not_found (project : json) :
      project_node response = Ok project ->
      truthy project = false ->
      unresolvable response
  | status_field_missing (project : json) (fields : list json) :
      project_node response = Ok project ->
      project_fields project = Ok fields ->
      Forall (fun field => ~ named "Status" field) fields ->
      unresolvable response
  | done_option_missing (project : json) (before after : list json) (field : json) :
      project_node response = Ok project ->
      project_fields project = Ok (before ++ field :: after) ->
      Forall (fun field => ~ named "Status" field) before ->
      named "Status" field ->
      (forall options, field_options field = Ok options ->
                       Forall (fun option => ~ named "Done" option) options) ->
      unresolvable response.

(** [item_id] was read from an item of the target project in the answer
    to the request that ends [sent_before]. *)
Definition located (net : network) (token : string) (project_id : json)
    (item_id : json) (sent_before : list http_request) : Prop :=
  exists earlier node response items item,
    sent_before = earlier ++ [items_request node token] /\
    net earlier (items_request node token) = Some response /\
    project_items response = Ok items /\
    In item items /\ on_project project_id item /\ py_get item "id" = Ok item_id.

(** [m] is the mutation of the script for an item so located. *)
Definition justified (net : network) (token : string)
    (project_id status_field_id status_done_option : json)
    (sent_before : list http_request) (m : http_request) : Prop :=
  exists item_id,
    m = update_request project_id item_id status_field_id status_done_option token /\
    located net token project_id item_id sent_before.

Definition mutations_justified (net : network) (token : string)
    (project_id status_field_id status_done_option : json)
    (trace : list http_request) : Prop :=
  forall pre m post,
    trace = pre ++ m :: post -> is_mutation m = true ->
    justified net token project_id status_field_id status_done_option pre m.

Definition token_required : string := "GITHUB_TOKEN is required to update project status".

Definition project_missing : string := "Project 2 for AlexanderZagaynov was not found".

Definition status_missing : string := "Status field or Done option not found on project".

(** The exceptions that come from the remote side: a request that fails,
    or an answer that has not the shape the script reads. *)
Definition api_error (e : exn) : Prop :=
  match e with
  | URLError | KeyError _ | TypeError | AttributeError => True
  | _ => False
  end.

(** An entry of the closed-issues answer that carries the pull-request
    marker. *)
Definition marked_pull_request (entry : json) : bool :=
  match entry with
  | JObj pairs =>
      match dict_lookup "pull_request" pairs with
      | Some _ => true
      | None => false
      end
  | _ => false
  end.

Definition is_record (entry : json) : Prop := exists pairs, entry = JObj pairs.

(** ** A small remote side for concrete runs *)

(** Answers by the kind of request alone: the project metadata, the list of
    closed issues, single issues by URL, project items by issue node, and an
    acknowledgement of every mutation. *)
Definition remote (metadata listing : option json)
    (issue_at : string -> option json) (items_of : json -> option json) : network :=
  fun _ r =>
    match request_query r with
    | Some q =>
        if String.eqb q metadata_query then metadata
        else if String.eqb q items_query then
          match request_variable "issueId" r with
          | Some node => items_of node
          | None => None
          end
        else if String.eqb q mutation then
          Some (JObj [("data", JObj [("updateProjectV2ItemFieldValue", JObj [])])])
        else None
    | None =>
        if String.eqb (req_url r) closed_issues_url then listing
        else issue_at (req_url r)
    end.

Definition project_of (id : string) (fields : list json) : json :=
  JObj [("data", JObj [("user", JObj [("projectV2",
    JObj [("id", JStr id); ("fields", JObj [("nodes", JArr fields)])])])])].

Definition select_field (id name : string) (options : list (string * string)) : json :=
  JObj [("id", JStr id); ("name", JStr name);
        ("options", JArr (map (fun o => JObj [("id", JStr (fst o)); ("name", JStr (snd o))])
                             options))].

Definition items_of_issue (items : list (string * string)) : json :=
  JObj [("data", JObj [("node", JObj [("projectItems", JObj [("nodes",
    JArr (map (fun i => JObj [("id", JStr (fst i));
                              ("project", JObj [("id", JStr (snd i))])]) items))])])])].

Definition board : json :=
  project_of "P_1"
    [JObj []; select_field "F_1" "Status" [("O_todo", "Todo"); ("O_done", "Done")]].

Definition issue_42 : json :=
  JObj [("number", JNum 42); ("node_id", JStr "I_abc"); ("state", JStr "closed")].

Definition pull_43 : json :=
  JObj [("number", JNum 43); ("node_id", JStr "PR_x"); ("pull_request", JObj [])].

Definition issue_44 : json :=
  JObj [("number", JNum 44); ("node_id", JStr "I_off")].

Definition issue_45 : json := JObj [("number", JNum 45); ("title", JStr "no node")].

Definition issue_3 : json := JObj [("number", JNum 3); ("node_id", JStr "I_abc")].

Definition issue_5 : json := JObj [("number", JNum 5); ("node_id", JStr "I_off")].

Definition issue_url (number : string) : string :=
  "https://api.github.com/repos/AlexanderZagaynov/ascenoria/issues/" +:+ number.

Definition github : network :=
  remote (Some board) (Some (JArr [issue_44; pull_43; issue_42; issue_45]))
    (fun url => if String.eqb url (issue_url "3") then Some issue_3
                else if String.eqb url (issue_url "5") then Some issue_5
                else if String.eqb url (issue_url "43") then Some pull_43
                else None)
    (fun node =>
       if py_eq node (JStr "I_abc") then
         Some (items_of_issue [("PVTI_0", "P_other"); ("PVTI_1", "P_1")])
       else if py_eq node (JStr "PR_x") then Some (items_of_issue [("PVTI_9", "P_1")])
       else Some (items_of_issue [("PVTI_7", "P_other")])).

Definition with_token (token : string) : gmap string string := {[ "GITHUB_TOKEN" := token ]}.

Definition no_repr : json -> string := fun _ => "?".


(** Where the label scan over [github] ends: issue 44 is not on the
    project, entry 43 is a pull request, issue 42 is updated, issue 45 has
    no node identifier. *)
Definition label_scan_end : world :=
  {| requests :=
       [metadata_request "t";
        get_request closed_issues_url "t";
        items_request (JStr "I_off") "t";
        items_request (JStr "I_abc") "t";
        update_request (JStr "P_1") (JStr "PVTI_1") (JStr "F_1") (JStr "O_done") "t"];
     stdout :=
       ["Updating 3 issue(s) to Status=Done on project 2...";
        "- #44: not present on project, skipping";
        "- #42: status updated to Done";
        "- #45: missing node id, skipping"] |}.

(** A board whose only single-select field is not the status field. *)
Definition board_without_status : json :=
  project_of "P_1" [JObj []; select_field "F_2" "Priority" [("O_1", "High")]].

Definition github_without_status : network :=
  remote (Some board_without_status) (Some (JArr [issue_42])) (fun _ => None)
    (fun _ => Some (items_of_issue [("PVTI_1", "P_1")])).

(** A board whose status field has no option named "Done". *)
Definition board_without_done : json :=
  project_of "P_1" [select_field "F_1" "Status" [("O_todo", "Todo"); ("O_wip", "Doing")]].

(** The answer for a project number that does not exist. *)
Definition no_board : json :=
  JObj [("data", JObj [("user", JObj [("projectV2", JNull)])])].

(** An issue that has two items on the target project. *)
Definition two_items : json :=
  items_of_issue [("PVTI_0", "P_other"); ("PVTI_1", "P_1"); ("PVTI_2", "P_1")].

Definition github_two_items : network :=
  remote (Some board) (Some (JArr [issue_42])) (fun _ => None) (fun _ => Some two_items).

Definition item_of (id project : string) : json :=
  JObj [("id", JStr id); ("project", JObj [("id", JStr project)])].

(** ** What the further properties speak of *)

(** The two shapes of a request of the script: a GraphQL document sent to
    the GraphQL endpoint, or the listing of the closed issues; both with
    the method [_request] defaults to and the headers it builds. *)
Definition script_request (token : string) (r : http_request) : Prop :=
  req_method r = "GET" /\
  ((req_url r = "https://api.github.com/graphql" /\
    (exists body, req_data r = Some body) /\
    req_headers r = headers_of token true) \/
   (req_url r = closed_issues_url /\
    req_data r = None /\
    req_headers r = headers_of token false)).

(** [line] is one of the three lines of lines 188, 193 and 197 for
    [issue]. *)
Definition issue_line (py_repr : json -> string) (issue : json) (line : string) : Prop :=
  exists number,
    subscript issue "number" = Ok number /\
    (line = missing_node_line (py_str py_repr number) \/
     line = not_present_line (py_str py_repr number) \/
     line = updated_line (py_str py_repr number)).

(** A template with one replacement field, as [str.format] takes it. *)
Definition issue_url_template : string :=
  "https://api.github.com/repos/AlexanderZagaynov/ascenoria/issues/{}".

(** A remote side that answers every request, with the URL it was asked. *)
Definition echo : network := fun _ r => Some (JStr (req_url r)).

(** A remote side on which every mutation fails. *)
Definition github_read_only : network :=
  fun sent_before r => if is_mutation r then None else github sent_before r.

(** A remote side that does not know the node of any issue. *)
Definition github_unknown_nodes : network :=
  remote (Some board) (Some (JArr [issue_42; issue_44])) (fun _ => None)
    (fun _ => Some (JObj [("data", JObj [("node", JNull)])])).

(** A remote side whose nodes are not issues: the fragment of the query
    selects nothing. *)
Definition github_other_nodes : network :=
  remote (Some board) (Some (JArr [issue_42; issue_44])) (fun _ => None)
    (fun _ => Some (JObj [("data", JObj [("node", JObj [])])])).

(** A remote side whose first item on the project has no identifier. *)
Definition unnamed_item : json := JObj [("project", JObj [("id", JStr "P_1")])].

Definition github_unnamed_item : network :=
  remote (Some board) (Some (JArr [issue_42])) (fun _ => None)
    (fun _ => Some (JObj [("data", JObj [("node", JObj [("projectItems",
       JObj [("nodes", JArr [unnamed_item; item_of "PVTI_1" "P_1"])])])])])).

(** A remote side whose listing of the closed issues fails. *)
Definition github_no_listing : network :=
  remote (Some board) None (fun _ => None) (fun _ => None).

(** The remote side of the end-to-end example: issue 42 with the node
    [I_abc] is the only closed issue, and [PVTI_1] is its one item, under
    the project [P_1]. *)
Definition github_example : network :=
  remote (Some board) (Some (JArr [issue_42])) (fun _ => None)
    (fun _ => Some (items_of_issue [("PVTI_1", "P_1")])).

(** A status field with two options named "Done". *)
Definition board_two_done : json :=
  project_of "P_1"
    [JNull; select_field "F_0" "Priority" [("O_x", "Done")];
     select_field "F_1" "Status" [("O_a", "Done"); ("O_todo", "Todo"); ("O_b", "Done")];
     select_field "F_2" "Status" [("O_c", "Done")]].

(** * Properties *)

(** ** Strings *)

Lemma append_empty (s : string) : s +:+ EmptyString = s.
Proof.
  induction s as [|c s IH]; [reflexivity |].
  change (String c (s +:+ EmptyString) = String c s). now rewrite IH.
Qed.

Lemma bearer_literal (token : string) :
  fstring "Bearer {token}" [("token", token)] = Ok ("Bearer " +:+ token).
Proof.
  change (Ok ("Bearer " +:+ (token +:+ EmptyString)) = Ok ("Bearer " +:+ token)).
  now rewrite append_empty.
Qed.

Lemma graphql_literal : fstring "{GITHUB_API}/graphql" module_globals
                        = Ok "https://api.github.com/graphql".
Proof. reflexivity. Qed.

Lemma closed_issues_literal :
  fstring "{GITHUB_API}/repos/{OWNER}/{REPO}/issues?state=closed&labels=codex:done&per_page=100"
    module_globals = Ok closed_issues_url.
Proof. reflexivity. Qed.

Lemma issue_template_literal :
  fstring "{GITHUB_API}/repos/{OWNER}/{REPO}/issues/{}" module_globals = Raise SyntaxError.
Proof. reflexivity. Qed.

Lemma missing_node_literal (number : string) :
  fstring "- #{issue_number}: missing node id, skipping"
    (("issue_number", number) :: module_globals) = Ok (missing_node_line number).
Proof. reflexivity. Qed.

Lemma not_present_literal (number : string) :
  fstring "- #{issue_number}: not present on project, skipping"
    (("issue_number", number) :: module_globals) = Ok (not_present_line number).
Proof. reflexivity. Qed.

Lemma updated_literal (number : string) :
  fstring "- #{issue_number}: status updated to {STATUS_DONE_VALUE}"
    (("issue_number", number) :: module_globals) = Ok (updated_line number).
Proof. reflexivity. Qed.

Lemma summary_literal (count : nat) :
  fstring
    "Updating {len(issues)} issue(s) to Status={STATUS_DONE_VALUE} on project {PROJECT_NUMBER}..."
    (("len(issues)", str_of_Z (Z.of_nat count)) :: module_globals)
  = Ok (summary_line count).
Proof. reflexivity. Qed.

(** ** One step of a run *)

Lemma bind_lift {A B : Type} (r : result A) (k : A -> M B) (w : world) :
  bind (lift r) k w = match r with Ok a => k a w | Raise e => (Raise e, w) end.
Proof. unfold bind, lift. now destruct r. Qed.

Lemma bind_step {A B : Type} (c : M A) (k : A -> M B) (w w' : world) (r : result A) :
  c w = (r, w') ->
  bind c k w = match r with Ok a => k a w' | Raise e => (Raise e, w') end.
Proof. intros H. unfold bind. rewrite H. now destruct r. Qed.

Section Runs.

Variable py_repr : json -> string.
Variable net : network.

Lemma urlopen_run (r : http_request) (w : world) :
  urlopen net r w = (answer net w r, sent r w).
Proof. unfold urlopen, answer. now destruct (net (requests w) r). Qed.

Lemma _request_get (url token : string) (w : world) :
  _request net url token "GET" None w
  = (answer net w (get_request url token), sent (get_request url token) w).
Proof.
  unfold _request. rewrite bind_lift, bearer_literal. apply urlopen_run.
Qed.

Lemma _graphql_run (query : string) (variables : json) (token : string) (w : world) :
  _graphql net query variables token w
  = (answer net w (graphql_request query variables token),
     sent (graphql_request query variables token) w).
Proof.
  unfold _graphql. rewrite bind_lift, graphql_literal.
  unfold _request. rewrite bind_lift, bearer_literal. apply urlopen_run.
Qed.

Lemma _fetch_project_metadata_run (token : string) (w : world) :
  _fetch_project_metadata net token w
  = (rbind (answer net w (metadata_request token)) resolve,
     sent (metadata_request token) w).
Proof.
  unfold _fetch_project_metadata.
  rewrite (bind_step _ _ _ _ _ (_graphql_run _ _ _ _)).
  fold (metadata_request token).
  now destruct (answer net w (metadata_request token)).
Qed.

Lemma _issue_project_item_id_run (issue_node_id project_id : json) (token : string)
    (w : world) :
  _issue_project_item_id net issue_node_id project_id token w
  = (rbind (answer net w (items_request issue_node_id token))
       (fun response => locate response project_id),
     sent (items_request issue_node_id token) w).
Proof.
  unfold _issue_project_item_id.
  rewrite (bind_step _ _ _ _ _ (_graphql_run _ _ _ _)).
  fold (items_request issue_node_id token).
  now destruct (answer net w (items_request issue_node_id token)).
Qed.

Lemma _update_status_run (project_id item_id field_id option_id : json)
    (token : string) (w : world) :
  _update_status net project_id item_id field_id option_id token w
  = (rbind (answer net w (update_request project_id item_id field_id option_id token))
       (fun _ => Ok tt),
     sent (update_request project_id item_id field_id option_id token) w).
Proof.
  unfold _update_status.
  rewrite (bind_step _ _ _ _ _ (_graphql_run _ _ _ _)).
  fold (update_request project_id item_id field_id option_id token).
  now destruct (answer net w (update_request project_id item_id field_id option_id token)).
Qed.

Lemma _closed_codex_done_issues_run (token : string) (w : world) :
  _closed_codex_done_issues net token w
  = (rbind (answer net w (get_request closed_issues_url token))
       (fun issues => let? issues := py_iter issues in without_pull_requests issues),
     sent (get_request closed_issues_url token) w).
Proof.
  unfold _closed_codex_done_issues.
  rewrite bind_lift, closed_issues_literal.
  rewrite (bind_step _ _ _ _ _ (_request_get _ _ _)).
  now destruct (answer net w (get_request closed_issues_url token)).
Qed.

End Runs.

(** ** Values *)

Lemma py_eq_str (a : json) (s : string) : py_eq a (JStr s) = true -> a = JStr s.
Proof.
  destruct a; cbn; try discriminate.
  intros H. apply String.eqb_eq in H. now subst.
Qed.

Lemma py_eq_str_refl (s : string) : py_eq (JStr s) (JStr s) = true.
Proof. cbn. apply String.eqb_refl. Qed.

(** ** The locator *)

Lemma first_item_on_skip (project_id : json) (before rest : list json) :
  Forall (off_project project_id) before ->
  first_item_on (before ++ rest) project_id = first_item_on rest project_id.
Proof.
  induction 1 as [|item before [id [Hid Hne]] _ IH]; [reflexivity|].
  cbn [app first_item_on]. rewrite Hid. cbn [rbind]. now rewrite Hne.
Qed.

Lemma first_item_on_none (project_id : json) (items : list json) :
  Forall (off_project project_id) items -> first_item_on items project_id = Ok JNull.
Proof.
  intros H. rewrite <- (app_nil_r items). now rewrite first_item_on_skip.
Qed.

Lemma first_item_on_first (project_id : json) (before after : list json) (item : json) :
  Forall (off_project project_id) before ->
  on_project project_id item ->
  first_item_on (before ++ item :: after) project_id = py_get item "id".
Proof.
  intros Hbefore [id [Hid Heq]]. rewrite first_item_on_skip by exact Hbefore.
  cbn [first_item_on]. rewrite Hid. cbn [rbind]. now rewrite Heq.
Qed.

(** Whatever the locator returns that is not [None] is the identifier of
    an item of the target project. *)
Lemma first_item_on_found (project_id : json) (items : list json) (item_id : json) :
  first_item_on items project_id = Ok item_id ->
  truthy item_id = true ->
  exists item, In item items /\ on_project project_id item /\ py_get item "id" = Ok item_id.
Proof.
  induction items as [|item items IH]; cbn [first_item_on]; intros H Ht.
  - inversion H; subst. discriminate.
  - destruct (parent_project_id item) as [id|e] eqn:Hid; cbn [rbind] in H; [|discriminate].
    destruct (py_eq id project_id) eqn:Heq.
    + exists item. split; [now left|]. split; [now exists id | exact H].
    + destruct (IH H Ht) as [item' [Hin Hrest]]. exists item'. split; [now right | exact Hrest].
Qed.

(** ** The loop over the issues *)

Section Loop.

Variable py_repr : json -> string.
Variable net : network.
Variables (token : string) (project_id status_field_id status_done_option : json).

Local Abbreviation body :=
  (process_issue py_repr net token project_id status_field_id status_done_option).
Local Abbreviation loop :=
  (process_issues py_repr net token project_id status_field_id status_done_option).

(** The body of the loop, one case per path through lines 185-197. *)
Lemma process_issue_unfold (issue : json) (w : world) :
  body issue w =
  match subscript issue "number" with
  | Raise e => (Raise e, w)
  | Ok number =>
      match py_get issue "node_id" with
      | Raise e => (Raise e, w)
      | Ok node =>
          if truthy node then
            let w1 := sent (items_request node token) w in
            match rbind (answer net w (items_request node token))
                    (fun response => locate response project_id) with
            | Raise e => (Raise e, w1)
            | Ok item_id =>
                if truthy item_id then
                  let update := update_request project_id item_id status_field_id
                                  status_done_option token in
                  match answer net w1 update with
                  | Raise e => (Raise e, sent update w1)
                  | Ok _ => (Ok tt, printed (updated_line (py_str py_repr number))
                                      (sent update w1))
                  end
                else (Ok tt, printed (not_present_line (py_str py_repr number)) w1)
            end
          else (Ok tt, printed (missing_node_line (py_str py_repr number)) w)
      end
  end.
Proof.
  unfold process_issue.
  rewrite bind_lift. destruct (subscript issue "number") as [number|e]; [|reflexivity].
  rewrite bind_lift. destruct (py_get issue "node_id") as [node|e]; [|reflexivity].
  destruct (truthy node); cbn [negb].
  - rewrite (bind_step _ _ _ _ _ (_issue_project_item_id_run _ _ _ _ _)).
    destruct (rbind _ _) as [item_id|e]; [|reflexivity].
    destruct (truthy item_id); cbn [negb].
    + rewrite (bind_step _ _ _ _ _ (_update_status_run _ _ _ _ _ _ _)).
      destruct (answer _ _ _) as [ack|e]; cbn [rbind]; [|reflexivity].
      now rewrite bind_lift, updated_literal.
    + now rewrite bind_lift, not_present_literal.
  - now rewrite bind_lift, missing_node_literal.
Qed.

Lemma process_issues_app (before after : list json) (w : world) :
  loop (before ++ after) w =
  match loop before w with
  | (Ok _, w1) => loop after w1
  | (Raise e, w1) => (Raise e, w1)
  end.
Proof.
  revert w. induction before as [|issue before IH]; intros w; [reflexivity|].
  cbn [app process_issues]. unfold bind.
  destruct (process_issue _ _ _ _ _ _ issue w) as [[[]|e] w1]; [apply IH | reflexivity].
Qed.

(** The requests one issue adds: none, the project-item query, or the
    query followed by the one mutation its answer justifies. *)
Lemma process_issue_requests (issue : json) (w w' : world) (r : result unit) :
  body issue w = (r, w') ->
  requests w' = requests w \/
  (exists node, requests w' = requests w ++ [items_request node token]) \/
  (exists node response items item item_id,
     requests w' = requests w ++
       [items_request node token;
        update_request project_id item_id status_field_id status_done_option token] /\
     net (requests w) (items_request node token) = Some response /\
     project_items response = Ok items /\
     In item items /\ on_project project_id item /\ py_get item "id" = Ok item_id).
Proof.
  rewrite process_issue_unfold.
  destruct (subscript issue "number") as [number|e]; [|intros [= <- <-]; now left].
  destruct (py_get issue "node_id") as [node|e]; [|intros [= <- <-]; now left].
  destruct (truthy node); [|intros [= <- <-]; now left].
  cbv zeta. unfold answer at 1.
  destruct (net (requests w) (items_request node token)) as [response|] eqn:Hnet;
    cbn [rbind]; [|intros [= <- <-]; right; left; now exists node].
  unfold locate.
  destruct (project_items response) as [items|e] eqn:Hitems; cbn [rbind];
    [|intros [= <- <-]; right; left; now exists node].
  destruct (first_item_on items project_id) as [item_id|e] eqn:Hfirst;
    [|intros [= <- <-]; right; left; now exists node].
  destruct (truthy item_id) eqn:Htrue; [|intros [= <- <-]; right; left; now exists node].
  destruct (first_item_on_found _ _ _ Hfirst Htrue) as (item & Hin & Hon & Hid).
  intros H. right; right. exists node, response, items, item, item_id.
  split; [|now repeat split].
  destruct (answer net _ _); injection H as <- <-; cbn; now rewrite <- app_assoc.
Qed.

Lemma process_issue_mutations (issue : json) (w w' : world) (r : result unit) :
  body issue w = (r, w') ->
  exists new : list http_request,
    requests w' = requests w ++ new /\ (length (List.filter is_mutation new) <= 1)%nat.
Proof.
  intros H. destruct (process_issue_requests _ _ _ _ H)
    as [Hsame | [[node Hquery] | (node & response & items & item & item_id & Hboth & _)]].
  - exists []. rewrite app_nil_r. split; [exact Hsame | cbn; lia].
  - exists [items_request node token]. split; [exact Hquery | cbn; lia].
  - eexists. split; [exact Hboth | cbn; lia].
Qed.

(** Over the whole loop: no more mutations than issues. *)
Lemma process_issues_mutations (selected : list json) (w w' : world) (r : result unit) :
  loop selected w = (r, w') ->
  exists new : list http_request,
    requests w' = requests w ++ new /\
    (length (List.filter is_mutation new) <= length selected)%nat.
Proof.
  revert w. induction selected as [|issue selected IH]; intros w H.
  - injection H as _ <-. exists []. now rewrite app_nil_r.
  - cbn [process_issues] in H. unfold bind in H.
    destruct (body issue w) as [[[]|e] w1] eqn:Hbody.
    + destruct (process_issue_mutations _ _ _ _ Hbody) as (new1 & Hfirst & Hone).
      destruct (IH _ H) as (new2 & Hsecond & Hrest).
      exists (new1 ++ new2). rewrite Hsecond, Hfirst, <- app_assoc. split; [reflexivity|].
      rewrite List.filter_app, length_app. cbn [length]. lia.
    + injection H as _ <-.
      destruct (process_issue_mutations _ _ _ _ Hbody) as (new1 & Heq & Hone).
      exists new1. split; [exact Heq | cbn [length]; lia].
Qed.

(** C10: the locator answers with the identifier of the first item of
    the target project, whatever follows it in the answer, and the body
    of the loop sends at most one mutation for the issue it is given. *)
Theorem first_item_single_mutation (node response item item_id : json)
    (others_before others_after : list json) (w : world) :
  net (requests w) (items_request node token) = Some response ->
  project_items response = Ok (others_before ++ item :: others_after) ->
  Forall (off_project project_id) others_before ->
  on_project project_id item ->
  py_get item "id" = Ok item_id ->
  _issue_project_item_id net node project_id token w
    = (Ok item_id, sent (items_request node token) w) /\
  forall (issue : json) (w0 w' : world) (r : result unit),
    body issue w0 = (r, w') ->
    exists new : list http_request,
      requests w' = requests w0 ++ new /\
      (length (List.filter is_mutation new) <= 1)%nat.
Proof.
  intros Hnet Hitems Hoff Hon Hid. split.
  - rewrite _issue_project_item_id_run. unfold answer. rewrite Hnet. cbn [rbind].
    unfold locate. rewrite Hitems. cbn [rbind].
    now rewrite (first_item_on_first _ _ _ _ Hoff Hon), Hid.
  - intros issue w0 w' r. apply process_issue_mutations.
Qed.

End Loop.

Lemma on_project_exact (s : string) (item : json) :
  on_project (JStr s) item -> parent_project_id item = Ok (JStr s).
Proof. intros [id [Hid Heq]]. now rewrite <- (py_eq_str _ _ Heq). Qed.

(** ** The resolver *)

Lemma not_named (name : string) (v found : json) :
  ~ named name v -> py_get v "name" = Ok found -> py_eq found (JStr name) = false.
Proof.
  intros Hnot Hget. destruct (py_eq found (JStr name)) eqn:Heq; [|reflexivity].
  apply py_eq_str in Heq. subst. contradiction.
Qed.

Lemma scan_options_none (options : list json) (status_done_option : json) :
  Forall (fun option => ~ named "Done" option) options ->
  (exists e, scan_options options status_done_option = Raise e) \/
  scan_options options status_done_option = Ok status_done_option.
Proof.
  induction 1 as [|option options Hnot _ IH]; [now right|].
  cbn [scan_options]. unfold STATUS_DONE_VALUE.
  destruct (py_get option "name") as [name|e] eqn:Hname;
    cbn [rbind]; [|left; now exists e].
  now rewrite (not_named _ _ _ Hnot Hname).
Qed.

Lemma scan_fields_skip (before rest : list json) :
  Forall (fun field => ~ named "Status" field) before ->
  (exists e, scan_fields (before ++ rest) = Raise e) \/
  scan_fields (before ++ rest) = scan_fields rest.
Proof.
  induction 1 as [|field before Hnot _ IH]; [now right|].
  cbn [app scan_fields]. unfold STATUS_FIELD_NAME. destruct (truthy field); [|exact IH].
  destruct (py_get field "name") as [name|e] eqn:Hname; cbn [rbind]; [|left; now exists e].
  now rewrite (not_named _ _ _ Hnot Hname).
Qed.

Lemma scan_fields_unnamed (fields : list json) :
  Forall (fun field => ~ named "Status" field) fields ->
  (exists e, scan_fields fields = Raise e) \/ scan_fields fields = Ok (JNull, JNull).
Proof.
  intros H. rewrite <- (app_nil_r fields). exact (scan_fields_skip fields [] H).
Qed.

Lemma scan_fields_without_done (field : json) (after : list json) :
  named "Status" field ->
  (forall options, field_options field = Ok options ->
                   Forall (fun option => ~ named "Done" option) options) ->
  (exists e, scan_fields (field :: after) = Raise e) \/
  (exists id, scan_fields (field :: after) = Ok (id, JNull)).
Proof.
  intros Hname Hoptions. cbn [scan_fields]. unfold STATUS_FIELD_NAME.
  destruct (truthy field) eqn:Htruthy.
  - rewrite Hname. cbn [rbind]. rewrite py_eq_str_refl.
    destruct (subscript field "id") as [id|e]; cbn [rbind]; [|left; now exists e].
    specialize (Hoptions) as Hall. unfold field_options in Hall.
    destruct (py_get_default field "options" (JArr [])) as [options|e]; cbn [rbind] in *;
      [|left; now exists e].
    destruct (py_iter options) as [visited|e]; cbn [rbind] in *; [|left; now exists e].
    destruct (scan_options_none visited JNull (Hall visited eq_refl)) as [[e ->] | ->];
      cbn [rbind]; [left; now exists e | right; now exists id].
  - unfold named, py_get, py_get_default in Hname.
    destruct field as [| | | | |[|pair pairs]]; try discriminate.
  Qed.

(** Metadata that cannot be resolved makes the resolver raise. *)
Lemma resolve_unresolvable (response : json) :
  unresolvable response -> exists e, resolve response = Raise e.
Proof.
  unfold resolve. intros [project Hproject Hfalse
                         | project fields Hproject Hfields Hnone
                         | project before after field Hproject Hfields Hnone Hname Hdone];
    rewrite Hproject; cbn [rbind].
  - rewrite Hfalse. cbn [negb]. eexists. reflexivity.
  - destruct (truthy project); cbn [negb]; [|eexists; reflexivity].
    destruct (subscript project "id") as [id|e]; cbn [rbind]; [|now exists e].
    rewrite Hfields. cbn [rbind].
    destruct (scan_fields_unnamed fields Hnone) as [[e ->] | ->]; cbn [rbind];
      [now exists e | eexists; reflexivity].
  - destruct (truthy project); cbn [negb]; [|eexists; reflexivity].
    destruct (subscript project "id") as [id|e]; cbn [rbind]; [|now exists e].
    rewrite Hfields. cbn [rbind].
    destruct (scan_fields_skip before (field :: after) Hnone) as [[e ->] | ->];
      cbn [rbind]; [now exists e|].
    destruct (scan_fields_without_done field after Hname Hdone) as [[e ->] | [fid ->]];
      cbn [rbind]; [now exists e|].
    cbn [truthy negb]. rewrite orb_true_r. eexists. reflexivity.
Qed.

(** ** Every mutation is justified by a project-item answer *)

Section Invariant.

Variable py_repr : json -> string.
Variable net : network.
Variables (token : string) (project_id status_field_id status_done_option : json).

Local Abbreviation ok_trace :=
  (mutations_justified net token project_id status_field_id status_done_option).
Local Abbreviation ok_mutation :=
  (justified net token project_id status_field_id status_done_option).

Lemma mutations_justified_nil : ok_trace [].
Proof. intros pre m post H. now destruct pre. Qed.

Lemma snoc_split (trace pre post : list http_request) (r m : http_request) :
  trace ++ [r] = pre ++ m :: post ->
  (post = [] /\ trace = pre /\ r = m) \/
  (exists post', post = post' ++ [r] /\ trace = pre ++ m :: post').
Proof.
  destruct post as [|x post _] using rev_ind; intros H.
  - left. apply app_inj_tail in H as [-> ->]. auto.
  - right. exists post.
    change (pre ++ m :: post ++ [x]) with (pre ++ (m :: post) ++ [x]) in H.
    rewrite app_assoc in H. apply app_inj_tail in H as [-> ->]. auto.
Qed.

Lemma mutations_justified_other (trace : list http_request) (r : http_request) :
  ok_trace trace -> is_mutation r = false ->
  ok_trace (trace ++ [r]).
Proof.
  intros Htrace Hr pre m post Heq Hm.
  destruct (snoc_split _ _ _ _ _ Heq) as [(_ & _ & ->) | (post' & _ & ->)].
  - congruence.
  - now apply (Htrace pre m post').
Qed.

Lemma mutations_justified_update (trace : list http_request) (r : http_request) :
  ok_trace trace -> ok_mutation trace r ->
  ok_trace (trace ++ [r]).
Proof.
  intros Htrace Hr pre m post Heq Hm.
  destruct (snoc_split _ _ _ _ _ Heq) as [(_ & -> & ->) | (post' & _ & ->)].
  - exact Hr.
  - now apply (Htrace pre m post').
Qed.

Lemma process_issue_justified (issue : json) (w w' : world) (r : result unit) :
  process_issue py_repr net token project_id status_field_id status_done_option issue w
    = (r, w') ->
  ok_trace (requests w) -> ok_trace (requests w').
Proof.
  intros H Hw. destruct (process_issue_requests _ _ _ _ _ _ _ _ _ _ H)
    as [-> | [[node ->] | (node & response & items & item & item_id & -> & Hnet & Hitems & Hin & Hon & Hid)]].
  - exact Hw.
  - now apply mutations_justified_other.
  - change [items_request node token; ?u] with ([items_request node token] ++ [u]).
    rewrite app_assoc. apply mutations_justified_update.
    + now apply mutations_justified_other.
    + exists item_id. split; [reflexivity|].
      now exists (requests w), node, response, items, item.
Qed.

Lemma process_issues_justified (selected : list json) (w w' : world) (r : result unit) :
  process_issues py_repr net token project_id status_field_id status_done_option
    selected w = (r, w') ->
  ok_trace (requests w) -> ok_trace (requests w').
Proof.
  revert w. induction selected as [|issue selected IH]; intros w H Hw.
  - injection H as _ <-. exact Hw.
  - cbn [process_issues] in H. unfold bind in H.
    destruct (process_issue _ _ _ _ _ _ issue w) as [[[]|e] w1] eqn:Hbody.
    + eapply IH; [exact H|]. eapply process_issue_justified; eassumption.
    + injection H as _ <-. eapply process_issue_justified; eassumption.
Qed.

End Invariant.

(** ** The run driver *)

Section Driver.

Variable py_repr : json -> string.
Variable net : network.

(** [main], one case per way through lines 167-197. *)
Lemma main_unfold (environ : gmap string string) (args : Namespace) (w : world) :
  main py_repr net environ args w =
  match environ !! "GITHUB_TOKEN" with
  | None => (Raise (SystemExit token_required), w)
  | Some EmptyString => (Raise (SystemExit token_required), w)
  | Some token =>
      let w1 := sent (metadata_request token) w in
      match rbind (answer net w (metadata_request token)) resolve with
      | Raise e => (Raise e, w1)
      | Ok (project_id, status_field_id, status_done_option) =>
          match issues args with
          | _ :: _ => (Raise SyntaxError, w1)
          | [] =>
              let w2 := sent (get_request closed_issues_url token) w1 in
              match rbind (answer net w1 (get_request closed_issues_url token))
                      (fun listed => let? listed := py_iter listed in
                                     without_pull_requests listed) with
              | Raise e => (Raise e, w2)
              | Ok selected =>
                  process_issues py_repr net token project_id status_field_id
                    status_done_option selected
                    (printed (summary_line (length selected)) w2)
              end
          end
      end
  end.
Proof.
  unfold main, _require_token.
  destruct (environ !! "GITHUB_TOKEN") as [[|c token]|]; try reflexivity.
  unfold bind at 1. unfold ret at 1.
  rewrite (bind_step _ _ _ _ _ (_fetch_project_metadata_run _ _ _)).
  cbv zeta. destruct (rbind _ resolve) as [[[project_id status_field_id] status_done_option]|e];
    [|reflexivity].
  destruct (issues args) as [|number numbers].
  - unfold bind at 1.
    rewrite _closed_codex_done_issues_run.
    destruct (rbind _ _) as [selected|e]; [|reflexivity].
    rewrite bind_lift, summary_literal. reflexivity.
  - unfold bind at 1. rewrite bind_lift, issue_template_literal. reflexivity.
Qed.

(** C1: in any run, a request that carries the status mutation names the
    project the resolver returned for the first answer of the run, and an
    item identifier read from an item of that project in the answer to the
    project-item query sent just before it. *)
Theorem mutation_targets_resolved_project (environ : gmap string string)
    (args : Namespace) (r : result unit) (w : world) :
  main py_repr net environ args start = (r, w) ->
  forall (pre post : list http_request) (m : http_request),
    requests w = pre ++ m :: post ->
    is_mutation m = true ->
    exists (token : string) (response project_id field_id option_id : json),
      environ !! "GITHUB_TOKEN" = Some token /\
      net [] (metadata_request token) = Some response /\
      resolve response = Ok (project_id, field_id, option_id) /\
      justified net token project_id field_id option_id pre m.
Proof.
  rewrite main_unfold. intros Hrun pre post m Hsplit Hm.
  destruct (environ !! "GITHUB_TOKEN") as [[|c rest]|] eqn:Htoken;
    try (injection Hrun as _ <-; now destruct pre).
  set (token := String c rest) in *. cbv zeta in Hrun. unfold answer at 1 in Hrun.
  cbn [start requests] in Hrun.
  assert (Hfirst : forall w', sent (metadata_request token) start = w' ->
                     requests w' = pre ++ m :: post -> False).
  { intros w' <- Hone. cbn in Hone.
    destruct pre as [|x [|y pre]]; try discriminate.
    injection Hone as <- _. discriminate. }
  destruct (net [] (metadata_request token)) as [response|] eqn:Hnet; cbn [rbind] in Hrun.
  2:{ injection Hrun as _ Hw. exfalso. exact (Hfirst w Hw Hsplit). }
  destruct (resolve response) as [[[project_id field_id] option_id]|e] eqn:Hresolve.
  2:{ injection Hrun as _ Hw. exfalso. exact (Hfirst w Hw Hsplit). }
  clear Hfirst.
  exists token, response, project_id, field_id, option_id.
  repeat split; try assumption. revert pre m post Hsplit Hm.
  change (mutations_justified net token project_id field_id option_id (requests w)).
  assert (Hstart : mutations_justified net token project_id field_id option_id
                     (requests (sent (metadata_request token) start))).
  { apply (mutations_justified_other _ _ _ _ _ []);
      [apply mutations_justified_nil | reflexivity]. }
  destruct (issues args) as [|number numbers].
  - destruct (rbind _ _) as [selected|e] in Hrun.
    + eapply process_issues_justified; [exact Hrun|].
      now apply mutations_justified_other.
    + injection Hrun as _ <-. now apply mutations_justified_other.
  - injection Hrun as _ <-. exact Hstart.
Qed.

End Driver.

(** ** The selector *)

Lemma without_pull_requests_filter (entries : list json) :
  Forall is_record entries ->
  without_pull_requests entries
  = Ok (List.filter (fun entry => negb (marked_pull_request entry)) entries).
Proof.
  induction 1 as [|entry entries [pairs ->] _ IH]; [reflexivity|].
  cbn [without_pull_requests List.filter py_in marked_pull_request rbind]. rewrite IH.
  cbn [rbind]. now destruct (dict_lookup "pull_request" pairs).
Qed.

(** C6: in label-scan mode the update set is the answer of the API with
    the entries that carry a pull-request marker removed and the others
    kept in their order. *)
Theorem label_scan_drops_pull_requests (net : network) (token : string)
    (entries : list json) (w : world) :
  net (requests w) (get_request closed_issues_url token) = Some (JArr entries) ->
  Forall is_record entries ->
  _closed_codex_done_issues net token w
  = (Ok (List.filter (fun entry => negb (marked_pull_request entry)) entries),
     sent (get_request closed_issues_url token) w).
Proof.
  intros Hnet Hrecords. rewrite _closed_codex_done_issues_run.
  unfold answer. rewrite Hnet. cbn [rbind py_iter].
  now rewrite without_pull_requests_filter.
Qed.

(** X5: the numbers the loop of line 176 goes through are the numbers of
    the command line, each once, in strictly ascending order. *)
Lemma sorted_distinct (numbers : list Z) :
  StronglySorted Z.lt (sorted (list_to_set numbers)) /\
  forall n : Z, In n (sorted (list_to_set numbers)) <-> In n numbers.
Proof.
  unfold sorted. split.
  - assert (Hle : StronglySorted Z.le (merge_sort Z.le (elements (list_to_set numbers : gset Z))))
      by apply (StronglySorted_merge_sort Z.le).
    assert (Hnodup : NoDup (merge_sort Z.le (elements (list_to_set numbers : gset Z)))).
    { rewrite merge_sort_Permutation. apply NoDup_elements. }
    induction Hle as [|x l Hl IH Hall]; [constructor|].
    apply NoDup_cons in Hnodup as [Hx Hnodup].
    constructor; [now apply IH|].
    rewrite Forall_forall in *. intros y Hy.
    specialize (Hall y Hy). assert (x <> y) by (intros ->; contradiction). lia.
  - intros n. rewrite <- !list_elem_of_In, merge_sort_Permutation, elem_of_elements.
    apply elem_of_list_to_set.
Qed.

(** X7: lines 175-177 with a template that formats and a remote side that
    answers: one request without a body per number, in the order of the
    list, and one fetched record per number. *)
Lemma fetch_selected_all (net : network) (token template : string) (url : Z -> string)
    (numbers : list Z) (w : world) :
  (forall n : Z, str_format template (str_of_Z n) = Ok (url n)) ->
  (forall sent_before r, is_Some (net sent_before r)) ->
  exists fetched : list json,
    fetch_selected net token template numbers w
    = (Ok fetched,
       {| requests := requests w ++ map (fun n => get_request (url n) token) numbers;
          stdout := stdout w |}) /\
    length fetched = length numbers.
Proof.
  intros Hformat Hanswered. revert w.
  induction numbers as [|number numbers IH]; intros w.
  - exists []. cbn. rewrite app_nil_r. now destruct w.
  - cbn [fetch_selected]. rewrite bind_lift, Hformat.
    rewrite (bind_step _ _ _ _ _ (_request_get _ _ _ _)).
    unfold answer. destruct (Hanswered (requests w) (get_request (url number) token))
      as [issue ->].
    destruct (IH (sent (get_request (url number) token) w)) as (fetched & Hrun & Hlen).
    exists (issue :: fetched). unfold bind at 1. rewrite Hrun. unfold ret.
    cbn. rewrite <- app_assoc, Hlen. auto.
Qed.

(** ** The exceptions of the resolver, the locator and the loop *)

Lemma rbind_raises {A B : Type} (P : exn -> Prop) (c : result A) (k : A -> result B)
    (e : exn) :
  rbind c k = Raise e ->
  (c = Raise e -> P e) ->
  (forall a, c = Ok a -> k a = Raise e -> P e) ->
  P e.
Proof.
  destruct c as [a|e']; cbn; intros H Hc Hk; [now apply (Hk a)|].
  injection H as ->. now apply Hc.
Qed.

Lemma subscript_raises (v : json) (key : string) (e : exn) :
  subscript v key = Raise e -> api_error e.
Proof.
  destruct v; cbn; try (intros [= <-]; exact I).
  destruct (dict_lookup key pairs); intros [= <-]; exact I.
Qed.

Lemma py_get_default_raises (v : json) (key : string) (default : json) (e : exn) :
  py_get_default v key default = Raise e -> api_error e.
Proof.
  destruct v; cbn; try (intros [= <-]; exact I).
  destruct (dict_lookup key pairs); discriminate.
Qed.

Lemma py_iter_raises (v : json) (e : exn) : py_iter v = Raise e -> api_error e.
Proof. destruct v; cbn; try (intros [= <-]; exact I); discriminate. Qed.

Lemma py_in_raises (needle : string) (v : json) (e : exn) :
  py_in needle v = Raise e -> api_error e.
Proof. destruct v; cbn; try (intros [= <-]; exact I); discriminate. Qed.

Create HintDb raises.

#[local] Hint Resolve subscript_raises py_get_default_raises py_iter_raises
  py_in_raises : raises.

Ltac raises :=
  repeat (match goal with
          | H : rbind _ _ = Raise _ |- _ =>
              apply (rbind_raises _ _ _ _ H); clear H; [intros H | intros ? ? H]
          | H : (if ?b then _ else _) = Raise _ |- _ => destruct b
          | H : Ok _ = Raise _ |- _ => discriminate H
          | H : py_get _ _ = Raise _ |- _ => unfold py_get in H
          end);
  eauto with raises.

Lemma scan_options_raises (options : list json) (found : json) (e : exn) :
  scan_options options found = Raise e -> api_error e.
Proof.
  revert found. induction options as [|option options IH]; intros found H;
    cbn [scan_options] in H; raises.
Qed.

Lemma scan_fields_raises (fields : list json) (e : exn) :
  scan_fields fields = Raise e -> api_error e.
Proof.
  induction fields as [|field fields IH]; intros H; cbn [scan_fields] in H; raises.
  eauto using scan_options_raises.
Qed.

Lemma without_pull_requests_raises (entries : list json) (e : exn) :
  without_pull_requests entries = Raise e -> api_error e.
Proof.
  induction entries as [|entry entries IH]; intros H; cbn [without_pull_requests] in H;
    raises.
Qed.



Lemma project_missing_literal :
  fstring "Project {PROJECT_NUMBER} for {OWNER} was not found" module_globals
  = Ok project_missing.
Proof. reflexivity. Qed.

Lemma resolve_raises (response : json) (e : exn) :
  resolve response = Raise e ->
  e = SystemExit project_missing \/ e = SystemExit status_missing \/ api_error e.
Proof.
  unfold resolve. rewrite project_missing_literal.
  destruct (project_node response) as [project|e1] eqn:Hproject; cbn [rbind].
  2:{ intros [= <-]. right; right. unfold project_node in Hproject. raises. }
  destruct (truthy project); cbn [negb]; [|intros [= <-]; now left].
  destruct (subscript project "id") as [project_id|e1] eqn:Hid; cbn [rbind].
  2:{ intros [= <-]. right; right. raises. }
  destruct (project_fields project) as [fields|e1] eqn:Hfields; cbn [rbind].
  2:{ intros [= <-]. right; right. unfold project_fields in Hfields. raises. }
  destruct (scan_fields fields) as [[status_field_id status_done_option]|e1] eqn:Hscan;
    cbn [rbind].
  2:{ intros [= <-]. right; right. eauto using scan_fields_raises. }
  destruct (_ || _); [intros [= <-]; auto | discriminate].
Qed.

Section Failures.

Variable py_repr : json -> string.
Variable net : network.




End Failures.

(** ** The explicit mode *)

(** X3: line 174 is rejected: the last replacement field of the template
    is empty.  A run that is given issue numbers therefore ends in an
    exception at that line, after the metadata query at most, before any
    issue is fetched and before anything is printed. *)
Lemma explicit_mode_stops (py_repr : json -> string) (net : network)
    (environ : gmap string string) (args : Namespace) (r : result unit) (w : world) :
  issues args <> [] ->
  main py_repr net environ args start = (r, w) ->
  exit_code r <> 0 /\
  stdout w = [] /\
  (requests w = [] \/ exists token, requests w = [metadata_request token]).
Proof.
  intros Hexplicit. rewrite main_unfold.
  destruct (environ !! "GITHUB_TOKEN") as [[|c rest]|];
    try (intros [= <- <-]; cbn; auto).
  cbv zeta.
  destruct (rbind _ resolve) as [[[project_id field_id] option_id]|e].
  - destruct (issues args); [contradiction|].
    intros [= <- <-]. cbn. eauto.
  - intros [= <- <-]. cbn. eauto.
Qed.

(** The interpreter checks every formatted literal of the file before it
    runs the first statement, so it reports the same error for every
    command line, with and without a token. *)
Lemma script_rejected (py_repr : json -> string) (net : network)
    (environ : gmap string string) (args : Namespace) (w : world) :
  script py_repr net environ args w = (Raise SyntaxError, w).
Proof. reflexivity. Qed.

(** C2, at the command line [5 3 5]: the numbers to fetch are 3 and 5, but
    the template of their URLs is malformed and the run stops after the
    metadata query; neither issue is fetched. *)
Theorem explicit_numbers_not_fetched :
  sorted (list_to_set [5; 3; 5]) = [3; 5] /\
  main no_repr github (with_token "t") {| issues := [5; 3; 5] |} start
  = (Raise SyntaxError, {| requests := [metadata_request "t"]; stdout := [] |}).
Proof. split; vm_compute; reflexivity. Qed.

(** C7, at the command line [3] with a token, a project that resolves and a
    remote side that answers: the run still ends with a non-zero status. *)
Theorem explicit_run_exit_status :
  with_token "t" !! "GITHUB_TOKEN" = Some "t" /\
  github [] (metadata_request "t") = Some board /\
  resolve board = Ok (JStr "P_1", JStr "F_1", JStr "O_done") /\
  main no_repr github (with_token "t") {| issues := [3] |} start
  = (Raise SyntaxError, {| requests := [metadata_request "t"]; stdout := [] |}) /\
  exit_code (fst (main no_repr github (with_token "t") {| issues := [3] |} start)) = 1.
Proof. repeat split; vm_compute; reflexivity. Qed.

(** C9, at the command line [43], a pull request that has an item on the
    project: the loop would update it as it is, without any filter, but
    the run never fetches it. *)
Theorem explicit_pull_request_not_updated :
  github [] (get_request (issue_url "43") "t") = Some pull_43 /\
  process_issues no_repr github "t" (JStr "P_1") (JStr "F_1") (JStr "O_done")
    [pull_43] start
  = (Ok tt,
     {| requests := [items_request (JStr "PR_x") "t";
                     update_request (JStr "P_1") (JStr "PVTI_9") (JStr "F_1")
                       (JStr "O_done") "t"];
        stdout := ["- #43: status updated to Done"] |}) /\
  main no_repr github (with_token "t") {| issues := [43] |} start
  = (Raise SyntaxError, {| requests := [metadata_request "t"]; stdout := [] |}).
Proof. repeat split; vm_compute; reflexivity. Qed.

(** ** Concrete runs *)

Example resolve_board : resolve board = Ok (JStr "P_1", JStr "F_1", JStr "O_done").
Proof. reflexivity. Qed.

Example resolve_no_board : resolve no_board = Raise (SystemExit project_missing).
Proof. reflexivity. Qed.

Example resolve_without_status :
  resolve board_without_status = Raise (SystemExit status_missing).
Proof. reflexivity. Qed.

Example resolve_without_done :
  resolve board_without_done = Raise (SystemExit status_missing).
Proof. reflexivity. Qed.

Example no_board_unresolvable : unresolvable no_board.
Proof. now apply (project_not_found no_board JNull). Qed.

Example board_without_done_unresolvable : unresolvable board_without_done.
Proof.
  apply (done_option_missing board_without_done
           (JObj [("id", JStr "P_1");
                  ("fields", JObj [("nodes", JArr [select_field "F_1" "Status"
                     [("O_todo", "Todo"); ("O_wip", "Doing")]])])])
           [] [] (select_field "F_1" "Status" [("O_todo", "Todo"); ("O_wip", "Doing")]));
    try reflexivity; [constructor|].
  intros options [= <-]. repeat constructor; intros H; discriminate H.
Qed.

Example issue_45_lacks_node_id : lacks_node_id issue_45.
Proof. exists JNull. split; reflexivity. Qed.

Example filtered_listing :
  List.filter (fun entry => negb (marked_pull_request entry))
    [issue_44; pull_43; issue_42; issue_45] = [issue_44; issue_42; issue_45].
Proof. reflexivity. Qed.

Lemma mutation_targets_resolved_project_witness :
  exists (token : string) (response project_id field_id option_id : json),
    with_token "t" !! "GITHUB_TOKEN" = Some token /\
    github [] (metadata_request token) = Some response /\
    resolve response = Ok (project_id, field_id, option_id) /\
    justified github token project_id field_id option_id
      [metadata_request "t"; get_request closed_issues_url "t";
       items_request (JStr "I_off") "t"; items_request (JStr "I_abc") "t"]
      (update_request (JStr "P_1") (JStr "PVTI_1") (JStr "F_1") (JStr "O_done") "t").
Proof.
  apply (mutation_targets_resolved_project no_repr github (with_token "t")
           {| issues := [] |} (Ok tt) label_scan_end
           ltac:(vm_compute; reflexivity)
           [metadata_request "t"; get_request closed_issues_url "t";
            items_request (JStr "I_off") "t"; items_request (JStr "I_abc") "t"]
           []
           (update_request (JStr "P_1") (JStr "PVTI_1") (JStr "F_1") (JStr "O_done") "t"));
    reflexivity.
Defined.

Lemma label_scan_drops_pull_requests_witness :
  _closed_codex_done_issues github "t" start
  = (Ok (List.filter (fun entry => negb (marked_pull_request entry))
           [issue_44; pull_43; issue_42; issue_45]),
     sent (get_request closed_issues_url "t") start).
Proof.
  apply (label_scan_drops_pull_requests github "t"
           [issue_44; pull_43; issue_42; issue_45] start).
  - reflexivity.
  - repeat constructor; eexists; reflexivity.
Defined.

Lemma first_item_single_mutation_witness :
  _issue_project_item_id github_two_items (JStr "I_abc") (JStr "P_1") "t" start
    = (Ok (JStr "PVTI_1"), sent (items_request (JStr "I_abc") "t") start) /\
  forall (issue : json) (w0 w' : world) (r : result unit),
    process_issue no_repr github_two_items "t" (JStr "P_1") (JStr "F_1") (JStr "O_done")
      issue w0 = (r, w') ->
    exists new : list http_request,
      requests w' = requests w0 ++ new /\
      (length (List.filter is_mutation new) <= 1)%nat.
Proof.
  apply (first_item_single_mutation no_repr github_two_items "t" (JStr "P_1") (JStr "F_1")
           (JStr "O_done") (JStr "I_abc") two_items (item_of "PVTI_1" "P_1")
           (JStr "PVTI_1") [item_of "PVTI_0" "P_other"] [item_of "PVTI_2" "P_1"] start);
    try reflexivity.
  - constructor; [|constructor]. exists (JStr "P_other"). split; reflexivity.
  - exists (JStr "P_1"). split; reflexivity.
Defined.

(** * Further properties *)

(** ** Every request of a run *)

Lemma graphql_script_request (query : string) (variables : json) (token : string) :
  script_request token (graphql_request query variables token).
Proof. split; [reflexivity|]. left. repeat split. now eexists. Qed.

Lemma listing_script_request (token : string) :
  script_request token (get_request closed_issues_url token).
Proof. split; [reflexivity|]. right. now repeat split. Qed.

Lemma process_issue_script_requests (py_repr : json -> string) (net : network)
    (token : string) (project_id field_id option_id issue : json)
    (w w' : world) (r : result unit) :
  process_issue py_repr net token project_id field_id option_id issue w = (r, w') ->
  Forall (script_request token) (requests w) ->
  Forall (script_request token) (requests w').
Proof.
  intros H Hw.
  destruct (process_issue_requests _ _ _ _ _ _ _ _ _ _ H)
    as [-> | [[node ->] | (node & ? & ? & ? & item_id & -> & _)]]; [exact Hw | |];
    (apply Forall_app; split; [exact Hw|]);
    repeat (apply List.Forall_cons; [apply graphql_script_request|]); apply List.Forall_nil.
Qed.

Lemma process_issues_script_requests (py_repr : json -> string) (net : network)
    (token : string) (project_id field_id option_id : json) (selected : list json)
    (w w' : world) (r : result unit) :
  process_issues py_repr net token project_id field_id option_id selected w = (r, w') ->
  Forall (script_request token) (requests w) ->
  Forall (script_request token) (requests w').
Proof.
  revert w. induction selected as [|issue selected IH]; intros w H Hw.
  - injection H as _ <-. exact Hw.
  - cbn [process_issues] in H. unfold bind in H.
    destruct (process_issue _ _ _ _ _ _ issue w) as [[[]|e] w1] eqn:Hbody.
    + apply (IH w1 H). eapply process_issue_script_requests; eassumption.
    + injection H as _ <-. eapply process_issue_script_requests; eassumption.
Qed.

(** X1: whatever the command line and the remote side, every request of a
    run uses the method GET and carries the token of the environment as a
    bearer token; it goes to the GraphQL endpoint with a body and the JSON
    content type, or to the listing of the closed issues without a body. *)
Theorem requests_well_formed (py_repr : json -> string) (net : network)
    (environ : gmap string string) (args : Namespace) (r : result unit) (w : world) :
  main py_repr net environ args start = (r, w) ->
  Forall (fun request =>
            exists token, environ !! "GITHUB_TOKEN" = Some token /\
                          script_request token request) (requests w).
Proof.
  rewrite main_unfold. intros Hrun.
  destruct (environ !! "GITHUB_TOKEN") as [[|c rest]|] eqn:Htoken;
    try (injection Hrun as _ <-; constructor).
  set (token := String c rest) in *. cbv zeta in Hrun.
  cut (Forall (script_request token) (requests w)).
  { intros Hall. eapply Forall_impl; [exact Hall|].
    intros request H. exists token. split; [reflexivity | exact H]. }
  assert (Hone : Forall (script_request token)
                   (requests (sent (metadata_request token) start))).
  { apply List.Forall_cons; [apply graphql_script_request | apply List.Forall_nil]. }
  assert (Htwo : Forall (script_request token)
                   (requests (sent (get_request closed_issues_url token)
                                (sent (metadata_request token) start)))).
  { apply List.Forall_cons; [apply graphql_script_request|].
    apply List.Forall_cons; [apply listing_script_request | apply List.Forall_nil]. }
  destruct (rbind _ resolve) as [[[project_id field_id] option_id]|e];
    [|injection Hrun as _ <-; exact Hone].
  destruct (issues args); [|injection Hrun as _ <-; exact Hone].
  destruct (rbind _ _) as [selected|e] in Hrun; [|injection Hrun as _ <-; exact Htwo].
  eapply process_issues_script_requests; [exact Hrun | exact Htwo].
Qed.

Lemma requests_well_formed_witness :
  Forall (fun request =>
            exists token, with_token "t" !! "GITHUB_TOKEN" = Some token /\
                          script_request token request) (requests label_scan_end).
Proof.
  apply (requests_well_formed no_repr github (with_token "t") {| issues := [] |}
           (Ok tt) label_scan_end).
  vm_compute. reflexivity.
Defined.

(** ** What a successful resolution returns *)

Lemma named_iff (name : string) (v found : json) :
  py_get v "name" = Ok found -> (named name v <-> py_eq found (JStr name) = true).
Proof.
  intros Hget. unfold named. rewrite Hget. split.
  - intros [= ->]. apply py_eq_str_refl.
  - intros H. now rewrite (py_eq_str _ _ H).
Qed.

Lemma scan_options_ok (options : list json) (held found : json) :
  scan_options options held = Ok found ->
  (found = held /\ Forall (fun option => ~ named "Done" option) options) \/
  (exists earlier option after,
     options = earlier ++ option :: after /\
     named "Done" option /\ subscript option "id" = Ok found /\
     Forall (fun option => ~ named "Done" option) after).
Proof.
  revert held. induction options as [|option options IH]; intros held H.
  - injection H as <-. left. split; [reflexivity | constructor].
  - cbn [scan_options] in H. unfold STATUS_DONE_VALUE in H.
    destruct (py_get option "name") as [name|e] eqn:Hname; cbn [rbind] in H;
      [|discriminate].
    destruct (py_eq name (JStr "Done")) eqn:Heq.
    + destruct (subscript option "id") as [id|e] eqn:Hid; cbn [rbind] in H;
        [|discriminate].
      right. destruct (IH _ H) as [[-> Hnone] | (earlier & o & after & -> & Ho & Hoid & Hafter)].
      * exists [], option, options. repeat split; try assumption.
        now apply (named_iff _ _ _ Hname).
      * exists (option :: earlier), o, after. now repeat split.
    + destruct (IH _ H) as [[-> Hnone] | (earlier & o & after & -> & Ho & Hoid & Hafter)].
      * left. split; [reflexivity|]. constructor; [|exact Hnone].
        intros Hnamed. apply (named_iff _ _ _ Hname) in Hnamed. congruence.
      * right. exists (option :: earlier), o, after. now repeat split.
Qed.

Lemma scan_fields_ok (fields : list json) (field_id found : json) :
  scan_fields fields = Ok (field_id, found) ->
  (field_id = JNull /\ found = JNull) \/
  (exists skipped field later options,
     fields = skipped ++ field :: later /\
     Forall (fun field => ~ named "Status" field) skipped /\
     named "Status" field /\ subscript field "id" = Ok field_id /\
     field_options field = Ok options /\
     scan_options options JNull = Ok found).
Proof.
  induction fields as [|field fields IH]; intros H.
  - injection H as <- <-. now left.
  - cbn [scan_fields] in H. unfold STATUS_FIELD_NAME in H.
    assert (Hrest : scan_fields fields = Ok (field_id, found) -> ~ named "Status" field ->
                    (field_id = JNull /\ found = JNull) \/
                    (exists skipped f later options,
                       field :: fields = skipped ++ f :: later /\
                       Forall (fun field => ~ named "Status" field) skipped /\
                       named "Status" f /\ subscript f "id" = Ok field_id /\
                       field_options f = Ok options /\
                       scan_options options JNull = Ok found)).
    { intros Hscan Hnot.
      destruct (IH Hscan) as [Hnull | (skipped & f & later & options & -> & Hskip & Hrest)];
        [now left|].
      right. exists (field :: skipped), f, later, options.
      split; [reflexivity|]. split; [now constructor | exact Hrest]. }
    destruct (truthy field) eqn:Htruthy.
    + destruct (py_get field "name") as [name|e] eqn:Hname; cbn [rbind] in H;
        [|discriminate].
      destruct (py_eq name (JStr "Status")) eqn:Heq.
      * right. exists [], field, fields.
        destruct (subscript field "id") as [id|e]; cbn [rbind] in H; [|discriminate].
        unfold field_options.
        destruct (py_get_default field "options" (JArr [])) as [options|e];
          cbn [rbind] in *; [|discriminate].
        destruct (py_iter options) as [visited|e]; cbn [rbind] in *; [|discriminate].
        destruct (scan_options visited JNull) as [done|e] eqn:Hdone; cbn [rbind] in H;
          [|discriminate].
        injection H as <- <-. exists visited.
        repeat split; try constructor; try assumption.
        now apply (named_iff _ _ _ Hname).
      * apply Hrest; [exact H|].
        intros Hnamed. apply (named_iff _ _ _ Hname) in Hnamed. congruence.
    + apply Hrest; [exact H|].
      unfold named, py_get, py_get_default.
      destruct field as [| | | | |[|pair pairs]]; try discriminate.
Qed.

(** X2: when the resolver returns, the project identifier is the "id" of
    the project node, the field identifier is the "id" of the first field
    named "Status", and the option identifier is the "id" of the last
    option named "Done" of that field; neither of the last two is empty
    or null. *)
Theorem resolve_success (response project_id field_id option_id : json) :
  resolve response = Ok (project_id, field_id, option_id) ->
  exists project skipped field later earlier option after,
    project_node response = Ok project /\ truthy project = true /\
    subscript project "id" = Ok project_id /\
    project_fields project = Ok (skipped ++ field :: later) /\
    Forall (fun field => ~ named "Status" field) skipped /\
    named "Status" field /\
    subscript field "id" = Ok field_id /\ truthy field_id = true /\
    field_options field = Ok (earlier ++ option :: after) /\
    named "Done" option /\
    Forall (fun option => ~ named "Done" option) after /\
    subscript option "id" = Ok option_id /\ truthy option_id = true.
Proof.
  unfold resolve. rewrite project_missing_literal.
  destruct (project_node response) as [project|e]; cbn [rbind]; [|discriminate].
  destruct (truthy project) eqn:Hproject; cbn [negb]; [|discriminate].
  destruct (subscript project "id") as [id|e] eqn:Hid; cbn [rbind]; [|discriminate].
  destruct (project_fields project) as [fields|e] eqn:Hfields; cbn [rbind];
    [|discriminate].
  destruct (scan_fields fields) as [[fid done]|e] eqn:Hscan; cbn [rbind]; [|discriminate].
  destruct (truthy fid) eqn:Hfid; cbn [negb orb]; [|discriminate].
  destruct (truthy done) eqn:Hdone; cbn [negb]; [|discriminate].
  intros [= <- <- <-].
  destruct (scan_fields_ok _ _ _ Hscan)
    as [[-> _] | (skipped & field & later & options & -> & Hskip & Hname & Hfield & Hoptions & Hscanned)];
    [discriminate|].
  destruct (scan_options_ok _ _ _ Hscanned)
    as [[-> _] | (earlier & option & after & -> & Hoption & Hoid & Hafter)];
    [discriminate|].
  exists project, skipped, field, later, earlier, option, after.
  repeat split; assumption.
Qed.

Lemma resolve_success_witness :
  exists project skipped field later earlier option after,
    project_node board_two_done = Ok project /\ truthy project = true /\
    subscript project "id" = Ok (JStr "P_1") /\
    project_fields project = Ok (skipped ++ field :: later) /\
    Forall (fun field => ~ named "Status" field) skipped /\
    named "Status" field /\
    subscript field "id" = Ok (JStr "F_1") /\ truthy (JStr "F_1") = true /\
    field_options field = Ok (earlier ++ option :: after) /\
    named "Done" option /\
    Forall (fun option => ~ named "Done" option) after /\
    subscript option "id" = Ok (JStr "O_b") /\ truthy (JStr "O_b") = true.
Proof.
  apply (resolve_success board_two_done (JStr "P_1") (JStr "F_1") (JStr "O_b")).
  reflexivity.
Defined.

(** ** Witnesses of the selector lemmas *)

Lemma issue_url_template_formats (arg : string) :
  str_format issue_url_template arg = Ok (issue_url arg).
Proof.
  change (Ok ("https://api.github.com/repos/AlexanderZagaynov/ascenoria/issues/"
              +:+ (arg +:+ EmptyString)) = Ok (issue_url arg)).
  now rewrite append_empty.
Qed.

Lemma explicit_mode_stops_witness :
  exit_code (Raise SyntaxError : result unit) <> 0 /\
  stdout (sent (metadata_request "t") start) = [] /\
  (requests (sent (metadata_request "t") start) = [] \/
   exists token, requests (sent (metadata_request "t") start) = [metadata_request token]).
Proof.
  apply (explicit_mode_stops no_repr github (with_token "t") {| issues := [5; 3; 5] |}
           (Raise SyntaxError) (sent (metadata_request "t") start)).
  - discriminate.
  - vm_compute. reflexivity.
Defined.

Lemma fetch_selected_all_witness :
  exists fetched : list json,
    fetch_selected echo "t" issue_url_template [3; 5] start
    = (Ok fetched,
       {| requests := requests start ++
            map (fun n => get_request (issue_url (str_of_Z n)) "t") [3; 5];
          stdout := stdout start |}) /\
    length fetched = length [3; 5].
Proof.
  apply (fetch_selected_all echo "t" issue_url_template
           (fun n => issue_url (str_of_Z n)) [3; 5] start).
  - intros n. apply issue_url_template_formats.
  - intros sent_before r. eexists. reflexivity.
Defined.

(** ** What a run prints *)

Lemma process_issue_lines (py_repr : json -> string) (net : network) (token : string)
    (project_id field_id option_id issue : json) (w w1 : world) (r : result unit) :
  process_issue py_repr net token project_id field_id option_id issue w = (r, w1) ->
  (r = Ok tt /\ exists line, stdout w1 = stdout w ++ [line] /\ issue_line py_repr issue line) \/
  ((exists e, r = Raise e) /\ stdout w1 = stdout w).
Proof.
  rewrite process_issue_unfold. unfold issue_line.
  destruct (subscript issue "number") as [number|e];
    [|intros [= <- <-]; right; split; [now exists e | reflexivity]].
  destruct (py_get issue "node_id") as [node|e];
    [|intros [= <- <-]; right; split; [now exists e | reflexivity]].
  destruct (truthy node).
  2:{ intros [= <- <-]. left. split; [reflexivity|].
      eexists. split; [reflexivity|]. exists number. auto. }
  cbv zeta. destruct (rbind _ _) as [item_id|e];
    [|intros [= <- <-]; right; split; [now exists e | reflexivity]].
  destruct (truthy item_id).
  2:{ intros [= <- <-]. left. split; [reflexivity|].
      eexists. split; [reflexivity|]. exists number. auto. }
  destruct (answer net _ _) as [ack|e];
    [|intros [= <- <-]; right; split; [now exists e | reflexivity]].
  intros [= <- <-]. left. split; [reflexivity|].
  eexists. split; [reflexivity|]. exists number. auto.
Qed.

(** ** What one failure costs *)

(** X9: when the mutation of an issue fails, no line is printed for the
    issue and the run ends there with the error: the issues after it are
    not looked up, and the requests made before stay made. *)
Theorem failed_update_aborts (py_repr : json -> string) (net : network) (token : string)
    (project_id field_id option_id : json) (before after : list json)
    (issue number node response item_id : json) (w w1 : world) :
  process_issues py_repr net token project_id field_id option_id before w = (Ok tt, w1) ->
  subscript issue "number" = Ok number ->
  py_get issue "node_id" = Ok node -> truthy node = true ->
  net (requests w1) (items_request node token) = Some response ->
  locate response project_id = Ok item_id -> truthy item_id = true ->
  net (requests w1 ++ [items_request node token])
    (update_request project_id item_id field_id option_id token) = None ->
  process_issues py_repr net token project_id field_id option_id
    (before ++ issue :: after) w
  = (Raise URLError,
     {| requests := requests w1 ++
          [items_request node token;
           update_request project_id item_id field_id option_id token];
        stdout := stdout w1 |}).
Proof.
  intros Hbefore Hnumber Hnode Htrue Hnet Hlocate Hitem Hfail.
  rewrite process_issues_app, Hbefore. cbn [process_issues]. unfold bind at 1.
  rewrite process_issue_unfold, Hnumber, Hnode, Htrue. cbv zeta.
  unfold answer at 1. rewrite Hnet. cbn [rbind]. rewrite Hlocate, Hitem.
  unfold answer. cbn [sent requests]. rewrite Hfail.
  unfold sent. cbn [requests stdout]. now rewrite <- app_assoc.
Qed.

Lemma failed_update_aborts_witness :
  process_issues no_repr github_read_only "t" (JStr "P_1") (JStr "F_1") (JStr "O_done")
    ([] ++ issue_42 :: [issue_44]) start
  = (Raise URLError,
     {| requests := requests start ++
          [items_request (JStr "I_abc") "t";
           update_request (JStr "P_1") (JStr "PVTI_1") (JStr "F_1") (JStr "O_done") "t"];
        stdout := stdout start |}).
Proof.
  apply (failed_update_aborts no_repr github_read_only "t" (JStr "P_1") (JStr "F_1")
           (JStr "O_done") [] [issue_44] issue_42 (JNum 42) (JStr "I_abc")
           (items_of_issue [("PVTI_0", "P_other"); ("PVTI_1", "P_1")]) (JStr "PVTI_1")
           start start); reflexivity.
Defined.

(** X10: the first item of the target project decides: when it has no
    identifier (or an empty one), the issue is reported as not present on
    the project and nothing is changed, whatever items follow it. *)
Theorem first_item_without_id (py_repr : json -> string) (net : network) (token : string)
    (project_id field_id option_id : json)
    (issue number node response item id : json) (others_before others_after : list json)
    (w : world) :
  subscript issue "number" = Ok number ->
  py_get issue "node_id" = Ok node -> truthy node = true ->
  net (requests w) (items_request node token) = Some response ->
  project_items response = Ok (others_before ++ item :: others_after) ->
  Forall (off_project project_id) others_before ->
  on_project project_id item ->
  py_get item "id" = Ok id -> truthy id = false ->
  process_issue py_repr net token project_id field_id option_id issue w
  = (Ok tt, printed (not_present_line (py_str py_repr number))
              (sent (items_request node token) w)).
Proof.
  intros Hnumber Hnode Htrue Hnet Hitems Hoff Hon Hid Hfalse.
  rewrite process_issue_unfold, Hnumber, Hnode, Htrue. cbv zeta.
  unfold answer at 1. rewrite Hnet. cbn [rbind].
  unfold locate. rewrite Hitems. cbn [rbind].
  now rewrite (first_item_on_first _ _ _ _ Hoff Hon), Hid, Hfalse.
Qed.

Lemma first_item_without_id_witness :
  process_issue no_repr github_unnamed_item "t" (JStr "P_1") (JStr "F_1") (JStr "O_done")
    issue_42 start
  = (Ok tt, printed (not_present_line (py_str no_repr (JNum 42)))
              (sent (items_request (JStr "I_abc") "t") start)).
Proof.
  apply (first_item_without_id no_repr github_unnamed_item "t" (JStr "P_1") (JStr "F_1")
           (JStr "O_done") issue_42 (JNum 42) (JStr "I_abc")
           (JObj [("data", JObj [("node", JObj [("projectItems",
              JObj [("nodes", JArr [unnamed_item; item_of "PVTI_1" "P_1"])])])])])
           unnamed_item JNull [] [item_of "PVTI_1" "P_1"] start);
    try reflexivity.
  - constructor.
  - exists (JStr "P_1"). split; reflexivity.
Defined.

(** ** Nodes that are not issues, nodes that are unknown *)

(** X12: when the node of the answer has no "projectItems" (the fragment
    of the query selected nothing), the locator finds no item: the issue
    is reported as not present on the project and nothing is changed. *)
Theorem node_without_items_is_skipped (py_repr : json -> string) (net : network)
    (token : string) (project_id field_id option_id : json)
    (issue number node response data : json) (pairs : list (string * json))
    (w : world) :
  subscript issue "number" = Ok number ->
  py_get issue "node_id" = Ok node -> truthy node = true ->
  net (requests w) (items_request node token) = Some response ->
  subscript response "data" = Ok data ->
  subscript data "node" = Ok (JObj pairs) ->
  dict_lookup "projectItems" pairs = None ->
  process_issue py_repr net token project_id field_id option_id issue w
  = (Ok tt, printed (not_present_line (py_str py_repr number))
              (sent (items_request node token) w)).
Proof.
  intros Hnumber Hnode Htrue Hnet Hdata Hresolved Hnone.
  rewrite process_issue_unfold, Hnumber, Hnode, Htrue. cbv zeta.
  unfold answer at 1. rewrite Hnet. cbn [rbind].
  unfold locate, project_items. rewrite Hdata. cbn [rbind]. rewrite Hresolved.
  cbn [rbind py_get_default]. now rewrite Hnone.
Qed.

Lemma node_without_items_is_skipped_witness :
  process_issue no_repr github_other_nodes "t" (JStr "P_1") (JStr "F_1") (JStr "O_done")
    issue_42 start
  = (Ok tt, printed (not_present_line (py_str no_repr (JNum 42)))
              (sent (items_request (JStr "I_abc") "t") start)).
Proof.
  apply (node_without_items_is_skipped no_repr github_other_nodes "t" (JStr "P_1")
           (JStr "F_1") (JStr "O_done") issue_42 (JNum 42) (JStr "I_abc")
           (JObj [("data", JObj [("node", JObj [])])]) (JObj [("node", JObj [])]) []
           start); reflexivity.
Defined.

(** X13: when the answer says the node is null (the remote side does not
    know the identifier), line 126 raises AttributeError: the run ends
    there, without a line for the issue, and the issues after it are not
    looked up. *)
Theorem unknown_node_aborts (py_repr : json -> string) (net : network) (token : string)
    (project_id field_id option_id : json) (before after : list json)
    (issue number node response data : json) (w w1 : world) :
  process_issues py_repr net token project_id field_id option_id before w = (Ok tt, w1) ->
  subscript issue "number" = Ok number ->
  py_get issue "node_id" = Ok node -> truthy node = true ->
  net (requests w1) (items_request node token) = Some response ->
  subscript response "data" = Ok data ->
  subscript data "node" = Ok JNull ->
  process_issues py_repr net token project_id field_id option_id
    (before ++ issue :: after) w
  = (Raise AttributeError, sent (items_request node token) w1).
Proof.
  intros Hbefore Hnumber Hnode Htrue Hnet Hdata Hnull.
  rewrite process_issues_app, Hbefore. cbn [process_issues]. unfold bind at 1.
  rewrite process_issue_unfold, Hnumber, Hnode, Htrue. cbv zeta.
  unfold answer at 1. rewrite Hnet. cbn [rbind].
  unfold locate, project_items. rewrite Hdata. cbn [rbind]. now rewrite Hnull.
Qed.

Lemma unknown_node_aborts_witness :
  process_issues no_repr github_unknown_nodes "t" (JStr "P_1") (JStr "F_1")
    (JStr "O_done") ([] ++ issue_42 :: [issue_44]) start
  = (Raise AttributeError, sent (items_request (JStr "I_abc") "t") start).
Proof.
  apply (unknown_node_aborts no_repr github_unknown_nodes "t" (JStr "P_1") (JStr "F_1")
           (JStr "O_done") [] [issue_44] issue_42 (JNum 42) (JStr "I_abc")
           (JObj [("data", JObj [("node", JNull)])]) (JObj [("node", JNull)])
           start start); reflexivity.
Defined.

(** ** How many requests the loop makes *)

(** X14: the loop only adds requests to those already made, at most two
    per issue, of which at most one is a mutation. *)
Theorem loop_request_budget (py_repr : json -> string) (net : network) (token : string)
    (project_id field_id option_id : json) (selected : list json) (w w' : world)
    (r : result unit) :
  process_issues py_repr net token project_id field_id option_id selected w = (r, w') ->
  exists new : list http_request,
    requests w' = requests w ++ new /\
    (length new <= 2 * length selected)%nat /\
    (length (List.filter is_mutation new) <= length selected)%nat.
Proof.
  revert w. induction selected as [|issue selected IH]; intros w H.
  - injection H as _ <-. exists []. rewrite app_nil_r. cbn. auto.
  - cbn [process_issues] in H. unfold bind in H.
    destruct (process_issue _ _ _ _ _ _ issue w) as [[[]|e] w1] eqn:Hbody.
    all: assert (Hone : exists new1, requests w1 = requests w ++ new1 /\
                          (length new1 <= 2)%nat /\
                          (length (List.filter is_mutation new1) <= 1)%nat)
      by (destruct (process_issue_requests _ _ _ _ _ _ _ _ _ _ Hbody)
            as [Hsame | [[node Hquery] | (node & ? & ? & ? & item_id & Hboth & _)]];
          [exists []; rewrite app_nil_r; cbn; auto
          | eexists; split; [exact Hquery | cbn; auto]
          | eexists; split; [exact Hboth | cbn; auto]]).
    all: destruct Hone as (new1 & Hfirst & Hlen1 & Hmut1).
    + destruct (IH _ H) as (new2 & Hsecond & Hlen2 & Hmut2).
      exists (new1 ++ new2). rewrite Hsecond, Hfirst, <- app_assoc.
      split; [reflexivity|]. rewrite List.filter_app, !length_app. cbn [length]. lia.
    + injection H as _ <-. exists new1. split; [exact Hfirst|]. cbn [length]. lia.
Qed.

Lemma loop_request_budget_witness :
  exists new : list http_request,
    requests label_scan_end
    = requests (printed (summary_line 3)
                  (sent (get_request closed_issues_url "t")
                     (sent (metadata_request "t") start))) ++ new /\
    (length new <= 2 * length [issue_44; issue_42; issue_45])%nat /\
    (length (List.filter is_mutation new) <= length [issue_44; issue_42; issue_45])%nat.
Proof.
  apply (loop_request_budget no_repr github "t" (JStr "P_1") (JStr "F_1") (JStr "O_done")
           [issue_44; issue_42; issue_45]
           (printed (summary_line 3)
              (sent (get_request closed_issues_url "t")
                 (sent (metadata_request "t") start)))
           label_scan_end (Ok tt)).
  vm_compute. reflexivity.
Defined.

(** ** Fields that are records *)

Lemma scan_fields_records (fields : list json) :
  Forall is_record fields ->
  Forall (fun field => ~ named "Status" field) fields ->
  scan_fields fields = Ok (JNull, JNull).
Proof.
  induction 1 as [|field fields [pairs ->] _ IH]; intros Hnone; [reflexivity|].
  apply Forall_cons in Hnone as [Hnot Hnone].
  cbn [scan_fields]. unfold STATUS_FIELD_NAME.
  destruct (truthy (JObj pairs)); [|now apply IH].
  destruct (py_get (JObj pairs) "name") as [name|e] eqn:Hname; cbn [rbind].
  - rewrite (not_named _ _ _ Hnot Hname). now apply IH.
  - unfold py_get, py_get_default in Hname.
    destruct (dict_lookup "name" pairs); discriminate.
Qed.


(** * A run of the file and the code of its lines *)

(** ** Positive behaviour that no run shows *)

(** C3, in an environment without the token: [_require_token] has the
    descriptive message ready, but the file is rejected before it is
    called; the run ends with the syntax error instead, having made no
    request. *)
Theorem missing_token_message_lost :
  (∅ : gmap string string) !! "GITHUB_TOKEN" = None /\
  _require_token ∅ start
    = (Raise (SystemExit "GITHUB_TOKEN is required to update project status"), start) /\
  script no_repr github ∅ {| issues := [] |} start = (Raise SyntaxError, start).
Proof. repeat split; reflexivity. Qed.

(** C5, over a listing that holds issue 44, which is on another project
    only, and issue 45, which has no node identifier: the loop of lines
    184-197 would print a skip line for each, update issue 42 between them
    and end normally; the run prints nothing and looks nothing up. *)
Theorem skip_line_never_printed :
  github [metadata_request "t"] (get_request closed_issues_url "t")
    = Some (JArr [issue_44; pull_43; issue_42; issue_45]) /\
  process_issues no_repr github "t" (JStr "P_1") (JStr "F_1") (JStr "O_done")
    [issue_44; issue_42; issue_45] start
  = (Ok tt,
     {| requests :=
          [items_request (JStr "I_off") "t";
           items_request (JStr "I_abc") "t";
           update_request (JStr "P_1") (JStr "PVTI_1") (JStr "F_1") (JStr "O_done") "t"];
        stdout :=
          ["- #44: not present on project, skipping";
           "- #42: status updated to Done";
           "- #45: missing node id, skipping"] |}) /\
  script no_repr github (with_token "t") {| issues := [] |} start
  = (Raise SyntaxError, start).
Proof. repeat split; vm_compute; reflexivity. Qed.

(** C8, on the end-to-end example: the resolver would return
    [(P_1, F_1, O_done)] and the loop would send the one mutation
    [(P_1, PVTI_1, F_1, O_done)] and print the line of issue 42; the run
    sends nothing and prints nothing. *)
Theorem update_never_sent :
  github_example [] (metadata_request "t") = Some board /\
  resolve board = Ok (JStr "P_1", JStr "F_1", JStr "O_done") /\
  _closed_codex_done_issues github_example "t" (sent (metadata_request "t") start)
  = (Ok [issue_42],
     sent (get_request closed_issues_url "t") (sent (metadata_request "t") start)) /\
  process_issues no_repr github_example "t" (JStr "P_1") (JStr "F_1") (JStr "O_done")
    [issue_42] start
  = (Ok tt,
     {| requests :=
          [items_request (JStr "I_abc") "t";
           update_request (JStr "P_1") (JStr "PVTI_1") (JStr "F_1") (JStr "O_done") "t"];
        stdout := ["- #42: status updated to Done"] |}) /\
  script no_repr github_example (with_token "t") {| issues := [] |} start
  = (Raise SyntaxError, start).
Proof. repeat split; vm_compute; reflexivity. Qed.

(** ** What holds of the run and of the statements alike *)

(** C4: when the project metadata cannot be resolved, the run ends in an
    exception before any issue is selected or processed: nothing is
    printed and no request other than the metadata query is made.  This
    holds of the statements of [main], which stop at the resolver, and of
    the file as the interpreter loads it. *)
Theorem unresolved_metadata_is_fatal (py_repr : json -> string) (net : network)
    (environ : gmap string string) (args : Namespace) (token : string)
    (response : json) :
  environ !! "GITHUB_TOKEN" = Some token -> token <> EmptyString ->
  net [] (metadata_request token) = Some response ->
  unresolvable response ->
  (exists (e : exn) (w : world),
     main py_repr net environ args start = (Raise e, w) /\
     stdout w = [] /\
     (requests w = [] \/ requests w = [metadata_request token])) /\
  (exists (e : exn) (w : world),
     script py_repr net environ args start = (Raise e, w) /\
     stdout w = [] /\
     (requests w = [] \/ requests w = [metadata_request token])).
Proof.
  intros Htoken Hnonempty Hnet Hbad. split.
  - rewrite main_unfold, Htoken.
    destruct token as [|c rest]; [congruence|].
    cbv zeta. unfold answer. cbn [start requests]. rewrite Hnet. cbn [rbind].
    destruct (resolve_unresolvable response Hbad) as [e ->].
    exists e. eexists. split; [reflexivity|]. cbn. auto.
  - exists SyntaxError, start. rewrite script_rejected. cbn. auto.
Qed.

Lemma unresolved_metadata_is_fatal_witness :
  (exists (e : exn) (w : world),
     main no_repr github_without_status (with_token "t") {| issues := [] |} start
       = (Raise e, w) /\
     stdout w = [] /\
     (requests w = [] \/ requests w = [metadata_request "t"])) /\
  (exists (e : exn) (w : world),
     script no_repr github_without_status (with_token "t") {| issues := [] |} start
       = (Raise e, w) /\
     stdout w = [] /\
     (requests w = [] \/ requests w = [metadata_request "t"])).
Proof.
  apply (unresolved_metadata_is_fatal no_repr github_without_status (with_token "t")
           {| issues := [] |} "t" board_without_status).
  - reflexivity.
  - discriminate.
  - reflexivity.
  - apply (status_field_missing board_without_status
             (JObj [("id", JStr "P_1");
                    ("fields", JObj [("nodes",
                       JArr [JObj []; select_field "F_2" "Priority" [("O_1", "High")]])])])
             [JObj []; select_field "F_2" "Priority" [("O_1", "High")]]).
    + reflexivity.
    + reflexivity.
    + repeat constructor; intros H; discriminate H.
Defined.

(** X11: in label-scan mode, when the listing of the closed issues fails,
    the run ends in an exception without a line printed, not even the
    summary, and without a project-item query or a mutation: its requests
    are at most the metadata query and the listing.  This holds of the
    statements of [main] and of the file as the interpreter loads it. *)
Theorem listing_failure_is_fatal (py_repr : json -> string) (net : network)
    (environ : gmap string string) (args : Namespace) (token : string)
    (response project_id field_id option_id : json) :
  issues args = [] ->
  environ !! "GITHUB_TOKEN" = Some token -> token <> EmptyString ->
  net [] (metadata_request token) = Some response ->
  resolve response = Ok (project_id, field_id, option_id) ->
  net [metadata_request token] (get_request closed_issues_url token) = None ->
  (exists (e : exn) (w : world),
     main py_repr net environ args start = (Raise e, w) /\
     stdout w = [] /\
     Forall (fun r => r = metadata_request token \/
                      r = get_request closed_issues_url token) (requests w)) /\
  (exists (e : exn) (w : world),
     script py_repr net environ args start = (Raise e, w) /\
     stdout w = [] /\
     Forall (fun r => r = metadata_request token \/
                      r = get_request closed_issues_url token) (requests w)).
Proof.
  intros Hmode Htoken Hnonempty Hmeta Hresolve Hlisting. split.
  - rewrite main_unfold, Htoken, Hmode.
    destruct token as [|c rest]; [congruence|]. cbv zeta.
    unfold answer. cbn [start sent requests app]. rewrite Hmeta. cbn [rbind].
    rewrite Hresolve, Hlisting. cbn [rbind].
    exists URLError. eexists. split; [reflexivity|]. split; [reflexivity|].
    cbn. apply List.Forall_cons; [now left|].
    apply List.Forall_cons; [now right | apply List.Forall_nil].
  - exists SyntaxError, start. rewrite script_rejected.
    split; [reflexivity|]. split; [reflexivity | apply List.Forall_nil].
Qed.

Lemma listing_failure_is_fatal_witness :
  (exists (e : exn) (w : world),
     main no_repr github_no_listing (with_token "t") {| issues := [] |} start
       = (Raise e, w) /\
     stdout w = [] /\
     Forall (fun r => r = metadata_request "t" \/
                      r = get_request closed_issues_url "t") (requests w)) /\
  (exists (e : exn) (w : world),
     script no_repr github_no_listing (with_token "t") {| issues := [] |} start
       = (Raise e, w) /\
     stdout w = [] /\
     Forall (fun r => r = metadata_request "t" \/
                      r = get_request closed_issues_url "t") (requests w)).
Proof.
  apply (listing_failure_is_fatal no_repr github_no_listing (with_token "t")
           {| issues := [] |} "t" board (JStr "P_1") (JStr "F_1") (JStr "O_done"));
    try reflexivity.
  discriminate.
Defined.

(** ** The loop of lines 184-197, issue by issue *)


Lemma process_issue_appends (py_repr : json -> string) (net : network) (token : string)
    (project_id field_id option_id issue : json) (w w1 : world) (r : result unit) :
  process_issue py_repr net token project_id field_id option_id issue w = (r, w1) ->
  exists (lines : list string) (later : list http_request),
    stdout w1 = stdout w ++ lines /\ requests w1 = requests w ++ later.
Proof.
  intros Hbody.
  assert (Hout : exists lines, stdout w1 = stdout w ++ lines).
  { destruct (process_issue_lines _ _ _ _ _ _ _ _ _ _ Hbody)
      as [[_ (line & Hline & _)] | [_ Hsame]].
    - now exists [line].
    - exists []. now rewrite app_nil_r. }
  assert (Hreq : exists later, requests w1 = requests w ++ later).
  { destruct (process_issue_requests _ _ _ _ _ _ _ _ _ _ Hbody)
      as [Hsame | [[node Hquery] | (node & ? & ? & ? & item_id & Hboth & _)]].
    - exists []. now rewrite app_nil_r.
    - eexists. exact Hquery.
    - eexists. exact Hboth. }
  destruct Hout as [lines Hout], Hreq as [later Hreq]. now exists lines, later.
Qed.

Lemma process_issues_appends (py_repr : json -> string) (net : network) (token : string)
    (project_id field_id option_id : json) (selected : list json) (w w' : world)
    (r : result unit) :
  process_issues py_repr net token project_id field_id option_id selected w = (r, w') ->
  exists (lines : list string) (later : list http_request),
    stdout w' = stdout w ++ lines /\ requests w' = requests w ++ later.
Proof.
  revert w. induction selected as [|issue selected IH]; intros w H.
  - injection H as _ <-. exists [], []. now rewrite !app_nil_r.
  - cbn [process_issues] in H. unfold bind in H.
    destruct (process_issue _ _ _ _ _ _ issue w) as [[[]|e] w1] eqn:Hbody.
    + destruct (process_issue_appends _ _ _ _ _ _ _ _ _ _ Hbody)
        as (lines1 & later1 & Hout1 & Hreq1).
      destruct (IH _ H) as (lines2 & later2 & Hout2 & Hreq2).
      exists (lines1 ++ lines2), (later1 ++ later2).
      now rewrite Hout2, Hreq2, Hout1, Hreq1, <- !app_assoc.
    + injection H as _ <-. exact (process_issue_appends _ _ _ _ _ _ _ _ _ _ Hbody).
Qed.

(** X8: the loop prints one line (missing node id, not present, or
    updated) per issue it goes through, in the order of the list, and
    nothing else; it ends normally exactly when it went through the whole
    list, and an issue that fails gets no line. *)
Theorem loop_report (py_repr : json -> string) (net : network) (token : string)
    (project_id field_id option_id : json) (selected : list json) (w w' : world)
    (r : result unit) :
  process_issues py_repr net token project_id field_id option_id selected w = (r, w') ->
  exists (done rest : list json) (lines : list string),
    selected = done ++ rest /\
    Forall2 (issue_line py_repr) done lines /\
    stdout w' = stdout w ++ lines /\
    (r = Ok tt <-> rest = []).
Proof.
  revert w. induction selected as [|issue selected IH]; intros w H.
  - injection H as <- <-. exists [], [], [].
    split; [reflexivity|]. split; [apply List.Forall2_nil|].
    split; [now rewrite app_nil_r | tauto].
  - cbn [process_issues] in H. unfold bind in H.
    destruct (process_issue _ _ _ _ _ _ issue w) as [[[]|e] w1] eqn:Hbody.
    + destruct (process_issue_lines _ _ _ _ _ _ _ _ _ _ Hbody)
        as [[_ (line & Hline & Hissue)] | [[e [=]] _]].
      destruct (IH _ H) as (done & rest & lines & -> & Hdone & Hout & Hrest).
      exists (issue :: done), rest, (line :: lines).
      split; [reflexivity|]. split; [now apply List.Forall2_cons|].
      split; [|exact Hrest]. rewrite Hout, Hline, <- app_assoc. reflexivity.
    + injection H as <- <-.
      destruct (process_issue_lines _ _ _ _ _ _ _ _ _ _ Hbody)
        as [[[=] _] | [_ Hsame]].
      exists [], (issue :: selected), [].
      split; [reflexivity|]. split; [apply List.Forall2_nil|].
      split; [now rewrite app_nil_r|]. split; discriminate.
Qed.

Lemma loop_report_witness :
  exists (done rest : list json) (lines : list string),
    [issue_44; issue_42; issue_45] = done ++ rest /\
    Forall2 (issue_line no_repr) done lines /\
    ["- #44: not present on project, skipping";
     "- #42: status updated to Done";
     "- #45: missing node id, skipping"] = stdout start ++ lines /\
    ((Ok tt : result unit) = Ok tt <-> rest = []).
Proof.
  apply (loop_report no_repr github "t" (JStr "P_1") (JStr "F_1") (JStr "O_done")
           [issue_44; issue_42; issue_45] start
           {| requests :=
                [items_request (JStr "I_off") "t";
                 items_request (JStr "I_abc") "t";
                 update_request (JStr "P_1") (JStr "PVTI_1") (JStr "F_1")
                   (JStr "O_done") "t"];
              stdout :=
                ["- #44: not present on project, skipping";
                 "- #42: status updated to Done";
                 "- #45: missing node id, skipping"] |}).
  vm_compute. reflexivity.
Defined.

(** X17: an issue of the list that has no node identifier, or whose
    project-item answer lists no item of the target project, is skipped by
    the loop: the body prints the skip line of the issue, sends at most the
    project-item query and no mutation, and ends normally; the loop goes on
    with the issues after it from the world so reached, and the world in
    which the whole loop ends still holds that request and that line. *)
Theorem skip_and_go_on (py_repr : json -> string) (net : network) (token : string)
    (project_id field_id option_id : json) (before after : list json)
    (issue number : json) (w w1 : world) :
  process_issues py_repr net token project_id field_id option_id before w = (Ok tt, w1) ->
  subscript issue "number" = Ok number ->
  lacks_node_id issue \/ absent_from_project net token project_id issue w1 ->
  exists (line : string) (new : list http_request),
    ((line = missing_node_line (py_str py_repr number) /\ new = []) \/
     (line = not_present_line (py_str py_repr number) /\
      exists node, py_get issue "node_id" = Ok node /\
                   new = [items_request node token])) /\
    process_issue py_repr net token project_id field_id option_id issue w1
      = (Ok tt, {| requests := requests w1 ++ new; stdout := stdout w1 ++ [line] |}) /\
    process_issues py_repr net token project_id field_id option_id
      (before ++ issue :: after) w
      = process_issues py_repr net token project_id field_id option_id after
          {| requests := requests w1 ++ new; stdout := stdout w1 ++ [line] |} /\
    forall (r : result unit) (w3 : world),
      process_issues py_repr net token project_id field_id option_id
        (before ++ issue :: after) w = (r, w3) ->
      exists (lines : list string) (later : list http_request),
        stdout w3 = stdout w1 ++ line :: lines /\
        requests w3 = requests w1 ++ new ++ later.
Proof.
  intros Hbefore Hnumber Hskip.
  assert (Hbody : exists line new,
            ((line = missing_node_line (py_str py_repr number) /\ new = []) \/
             (line = not_present_line (py_str py_repr number) /\
              exists node, py_get issue "node_id" = Ok node /\
                           new = [items_request node token])) /\
            process_issue py_repr net token project_id field_id option_id issue w1
            = (Ok tt, {| requests := requests w1 ++ new;
                         stdout := stdout w1 ++ [line] |})).
  { rewrite process_issue_unfold, Hnumber.
    destruct Hskip as [[node [Hnode Hfalse]]
                      | (node & response & items & Hnode & Htrue & Hnet & Hitems & Hoff)];
      rewrite Hnode.
    - rewrite Hfalse. exists (missing_node_line (py_str py_repr number)), [].
      split; [now left|]. unfold printed. now rewrite app_nil_r.
    - rewrite Htrue. cbv zeta. unfold answer. rewrite Hnet. cbn [rbind].
      unfold locate. rewrite Hitems. cbn [rbind].
      rewrite (first_item_on_none _ _ Hoff). cbn [truthy].
      exists (not_present_line (py_str py_repr number)), [items_request node token].
      split; [right; split; [reflexivity | now exists node] | reflexivity]. }
  destruct Hbody as (line & new & Hshape & Hbody).
  assert (Hloop : process_issues py_repr net token project_id field_id option_id
                    (before ++ issue :: after) w
                  = process_issues py_repr net token project_id field_id option_id after
                      {| requests := requests w1 ++ new; stdout := stdout w1 ++ [line] |}).
  { rewrite process_issues_app, Hbefore. cbn [process_issues]. unfold bind at 1.
    now rewrite Hbody. }
  exists line, new. repeat split; try assumption.
  intros r w3 Hend. rewrite Hloop in Hend.
  destruct (process_issues_appends _ _ _ _ _ _ _ _ _ _ Hend)
    as (lines & later & Hout & Hreq).
  exists lines, later. cbn [stdout requests] in Hout, Hreq.
  now rewrite Hout, Hreq, <- !app_assoc.
Qed.

Lemma skip_and_go_on_witness :
  exists (line : string) (new : list http_request),
    ((line = missing_node_line (py_str no_repr (JNum 44)) /\ new = []) \/
     (line = not_present_line (py_str no_repr (JNum 44)) /\
      exists node, py_get issue_44 "node_id" = Ok node /\
                   new = [items_request node "t"])) /\
    process_issue no_repr github "t" (JStr "P_1") (JStr "F_1") (JStr "O_done")
      issue_44 start
      = (Ok tt, {| requests := requests start ++ new; stdout := stdout start ++ [line] |}) /\
    process_issues no_repr github "t" (JStr "P_1") (JStr "F_1") (JStr "O_done")
      ([] ++ issue_44 :: [issue_42]) start
      = process_issues no_repr github "t" (JStr "P_1") (JStr "F_1") (JStr "O_done")
          [issue_42]
          {| requests := requests start ++ new; stdout := stdout start ++ [line] |} /\
    forall (r : result unit) (w3 : world),
      process_issues no_repr github "t" (JStr "P_1") (JStr "F_1") (JStr "O_done")
        ([] ++ issue_44 :: [issue_42]) start = (r, w3) ->
      exists (lines : list string) (later : list http_request),
        stdout w3 = stdout start ++ line :: lines /\
        requests w3 = requests start ++ new ++ later.
Proof.
  apply (skip_and_go_on no_repr github "t" (JStr "P_1") (JStr "F_1") (JStr "O_done")
           [] [issue_42] issue_44 (JNum 44) start start).
  - reflexivity.
  - reflexivity.
  - right. exists (JStr "I_off"), (items_of_issue [("PVTI_7", "P_other")]),
      [item_of "PVTI_7" "P_other"].
    repeat split; try reflexivity.
    constructor; [|constructor]. exists (JStr "P_other"). split; reflexivity.
Defined.

(** X18: an issue with a node identifier whose project-item answer holds
    an item of the target project with an identifier, the first of its
    kind, is updated by the loop once its mutation is answered: the body
    sends the project-item query and then the one mutation that names the
    project, that item, the field and the option the loop was given,
    prints the line of the issue and ends normally; the loop goes on with
    the issues after it, and the world in which the whole loop ends still
    holds those two requests and that line. *)
Theorem update_and_go_on (py_repr : json -> string) (net : network) (token : string)
    (project_id field_id option_id : json) (before after : list json)
    (issue : json) (n : Z) (node response item item_id ack : json)
    (others_before others_after : list json) (w w1 : world) :
  process_issues py_repr net token project_id field_id option_id before w = (Ok tt, w1) ->
  subscript issue "number" = Ok (JNum n) ->
  py_get issue "node_id" = Ok node -> truthy node = true ->
  net (requests w1) (items_request node token) = Some response ->
  project_items response = Ok (others_before ++ item :: others_after) ->
  Forall (off_project project_id) others_before ->
  on_project project_id item ->
  py_get item "id" = Ok item_id -> truthy item_id = true ->
  net (requests w1 ++ [items_request node token])
    (update_request project_id item_id field_id option_id token) = Some ack ->
  let w2 := {| requests := requests w1 ++
                 [items_request node token;
                  update_request project_id item_id field_id option_id token];
               stdout := stdout w1 ++
                 ["- #" +:+ str_of_Z n +:+ ": status updated to Done"] |} in
  process_issue py_repr net token project_id field_id option_id issue w1 = (Ok tt, w2) /\
  process_issues py_repr net token project_id field_id option_id
    (before ++ issue :: after) w
    = process_issues py_repr net token project_id field_id option_id after w2 /\
  forall (r : result unit) (w3 : world),
    process_issues py_repr net token project_id field_id option_id
      (before ++ issue :: after) w = (r, w3) ->
    exists (lines : list string) (later : list http_request),
      stdout w3 = stdout w1 ++
        ("- #" +:+ str_of_Z n +:+ ": status updated to Done") :: lines /\
      requests w3 = requests w1 ++
        [items_request node token;
         update_request project_id item_id field_id option_id token] ++ later.
Proof.
  intros Hbefore Hnumber Hnode Htrue Hnet Hitems Hoff Hon Hid Hitem Hack w2.
  assert (Hbody : process_issue py_repr net token project_id field_id option_id issue w1
                  = (Ok tt, w2)).
  { rewrite process_issue_unfold, Hnumber, Hnode, Htrue. cbv zeta.
    unfold answer at 1. rewrite Hnet. cbn [rbind].
    unfold locate. rewrite Hitems. cbn [rbind].
    rewrite (first_item_on_first _ _ _ _ Hoff Hon), Hid, Hitem.
    unfold answer. cbn [sent requests]. rewrite Hack.
    unfold w2, printed, sent. cbn [requests stdout]. now rewrite <- app_assoc. }
  assert (Hloop : process_issues py_repr net token project_id field_id option_id
                    (before ++ issue :: after) w
                  = process_issues py_repr net token project_id field_id option_id
                      after w2).
  { rewrite process_issues_app, Hbefore. cbn [process_issues]. unfold bind at 1.
    now rewrite Hbody. }
  split; [exact Hbody|]. split; [exact Hloop|].
  intros r w3 Hend. rewrite Hloop in Hend.
  destruct (process_issues_appends _ _ _ _ _ _ _ _ _ _ Hend)
    as (lines & later & Hout & Hreq).
  exists lines, later. unfold w2 in Hout, Hreq. cbn [stdout requests] in Hout, Hreq.
  now rewrite Hout, Hreq, <- !app_assoc.
Qed.

Lemma update_and_go_on_witness :
  let w2 := {| requests := requests start ++
                 [items_request (JStr "I_abc") "t";
                  update_request (JStr "P_1") (JStr "PVTI_1") (JStr "F_1")
                    (JStr "O_done") "t"];
               stdout := stdout start ++
                 ["- #" +:+ str_of_Z 42 +:+ ": status updated to Done"] |} in
  process_issue no_repr github "t" (JStr "P_1") (JStr "F_1") (JStr "O_done")
    issue_42 start = (Ok tt, w2) /\
  process_issues no_repr github "t" (JStr "P_1") (JStr "F_1") (JStr "O_done")
    ([] ++ issue_42 :: [issue_45]) start
    = process_issues no_repr github "t" (JStr "P_1") (JStr "F_1") (JStr "O_done")
        [issue_45] w2 /\
  forall (r : result unit) (w3 : world),
    process_issues no_repr github "t" (JStr "P_1") (JStr "F_1") (JStr "O_done")
      ([] ++ issue_42 :: [issue_45]) start = (r, w3) ->
    exists (lines : list string) (later : list http_request),
      stdout w3 = stdout start ++
        ("- #" +:+ str_of_Z 42 +:+ ": status updated to Done") :: lines /\
      requests w3 = requests start ++
        [items_request (JStr "I_abc") "t";
         update_request (JStr "P_1") (JStr "PVTI_1") (JStr "F_1") (JStr "O_done") "t"]
        ++ later.
Proof.
  apply (update_and_go_on no_repr github "t" (JStr "P_1") (JStr "F_1") (JStr "O_done")
           [] [issue_45] issue_42 42 (JStr "I_abc")
           (items_of_issue [("PVTI_0", "P_other"); ("PVTI_1", "P_1")])
           (item_of "PVTI_1" "P_1") (JStr "PVTI_1")
           (JObj [("data", JObj [("updateProjectV2ItemFieldValue", JObj [])])])
           [item_of "PVTI_0" "P_other"] [] start start);
    try reflexivity.
  - constructor; [|constructor]. exists (JStr "P_other"). split; reflexivity.
  - exists (JStr "P_1"). split; reflexivity.
Defined.

(** ** The messages of the resolver *)

(** X15: when the answer to the metadata query holds no project (the
    project node is null or empty), [_fetch_project_metadata] raises
    SystemExit with the message that names the project number and its
    owner, having made that one request. *)
Theorem project_not_found_message (net : network) (token : string)
    (response project : json) (w : world) :
  net (requests w) (metadata_request token) = Some response ->
  project_node response = Ok project -> truthy project = false ->
  _fetch_project_metadata net token w
  = (Raise (SystemExit "Project 2 for AlexanderZagaynov was not found"),
     sent (metadata_request token) w).
Proof.
  intros Hnet Hproject Hfalse. rewrite _fetch_project_metadata_run.
  unfold answer. rewrite Hnet. cbn [rbind].
  unfold resolve. rewrite project_missing_literal, Hproject. cbn [rbind].
  now rewrite Hfalse.
Qed.

Lemma project_not_found_message_witness :
  _fetch_project_metadata (remote (Some no_board) None (fun _ => None) (fun _ => None))
    "t" start
  = (Raise (SystemExit "Project 2 for AlexanderZagaynov was not found"),
     sent (metadata_request "t") start).
Proof.
  apply (project_not_found_message
           (remote (Some no_board) None (fun _ => None) (fun _ => None))
           "t" no_board JNull start); reflexivity.
Defined.

(** X16: when the project is there with an "id" and its fields are records
    of which none is named "Status", [_fetch_project_metadata] raises
    SystemExit with the message of line 98, having made that one
    request. *)
Theorem status_missing_message (net : network) (token : string)
    (response project project_id : json) (fields : list json) (w : world) :
  net (requests w) (metadata_request token) = Some response ->
  project_node response = Ok project -> truthy project = true ->
  subscript project "id" = Ok project_id ->
  project_fields project = Ok fields ->
  Forall is_record fields ->
  Forall (fun field => ~ named "Status" field) fields ->
  _fetch_project_metadata net token w
  = (Raise (SystemExit "Status field or Done option not found on project"),
     sent (metadata_request token) w).
Proof.
  intros Hnet Hproject Htrue Hid Hfields Hrecords Hnone.
  rewrite _fetch_project_metadata_run.
  unfold answer. rewrite Hnet. cbn [rbind].
  unfold resolve. rewrite project_missing_literal, Hproject. cbn [rbind].
  rewrite Htrue. cbn [negb]. rewrite Hid. cbn [rbind]. rewrite Hfields. cbn [rbind].
  now rewrite (scan_fields_records _ Hrecords Hnone).
Qed.

Lemma status_missing_message_witness :
  _fetch_project_metadata github_without_status "t" start
  = (Raise (SystemExit "Status field or Done option not found on project"),
     sent (metadata_request "t") start).
Proof.
  apply (status_missing_message github_without_status "t" board_without_status
           (JObj [("id", JStr "P_1");
                  ("fields", JObj [("nodes",
                     JArr [JObj []; select_field "F_2" "Priority" [("O_1", "High")]])])])
           (JStr "P_1") [JObj []; select_field "F_2" "Priority" [("O_1", "High")]] start);
    try reflexivity.
  - repeat constructor; eexists; reflexivity.
  - repeat constructor; intros H; discriminate H.
Defined.
